(** * Hardware-Info.py: the data-acquisition pipeline, embedded in Rocq

    A shallow embedding of [src/Hardware-Info.py]: the helpers ([fmt_bytes],
    [run_cmd], [esc], [make_table], [make_kv_table], [progress_bar],
    [make_card], [make_sub]), the six collectors and the assembling part of
    [main], followed by the properties of the pipeline.

    Conventions of the embedding.
    - A Python [str] is a list of Unicode code points ([str := list N]).
      Literals of the source are written [lit "..."]; [lit] decodes the UTF-8
      bytes of the Rocq literal into code points.
    - A Python [float] is the rational it denotes ([Q]); NaN and the
      infinities are outside the model, and products and quotients are exact
      (the rounding of float arithmetic is not modelled).  Fixed-point
      formatting ([:.1f], [:.2f], [:.0f]) rounds half to even, as CPython
      does on the exact value of the float.
    - Everything the program reads from its environment (the optional
      modules, [platform], [socket], [shutil.which], [subprocess.run],
      [json.loads], the clock) is a field of the record [World].
    - Collectors run in the monad [M]: a result or a raised exception,
      together with the trace of the probes that were invoked. *)

From Stdlib Require Import List NArith ZArith QArith Qabs Qminmax Bool Lia.
From Stdlib Require Import Permutation Sorted Qround.
From Stdlib Require String Ascii.
Import ListNotations String.StringSyntax.

Set Implicit Arguments.
Close Scope Q_scope.
Local Open Scope string_scope.
Local Open Scope list_scope.

(* ================================================================== *)
(** ** Strings *)

Definition char := N.
Definition str := list char.

(** UTF-8 decoding, used only to read the literals of this file. *)
Fixpoint utf8_decode (bs : list N) : str :=
  match bs with
  | [] => []
  | b :: r =>
      if (b <? 128)%N then b :: utf8_decode r
      else if (b <? 224)%N then
        match r with
        | b1 :: r1 => ((b - 192) * 64 + (b1 - 128))%N :: utf8_decode r1
        | _ => []
        end
      else if (b <? 240)%N then
        match r with
        | b1 :: b2 :: r2 =>
            ((b - 224) * 4096 + (b1 - 128) * 64 + (b2 - 128))%N :: utf8_decode r2
        | _ => []
        end
      else
        match r with
        | b1 :: b2 :: b3 :: r3 =>
            ((b - 240) * 262144 + (b1 - 128) * 4096 + (b2 - 128) * 64 + (b3 - 128))%N
              :: utf8_decode r3
        | _ => []
        end
  end.

Definition lit (s : String.string) : str :=
  utf8_decode (map Ascii.N_of_ascii (String.list_ascii_of_string s)).

(** The source's markup literals, which are full of double quotes: the Rocq
    literal has an apostrophe wherever the source has a double quote. *)
Definition markup (s : String.string) : str :=
  map (fun c => if (c =? 39)%N then 34%N else c) (lit s).

(** The newline character, [\n] in the source's literals. *)
Definition nl : str := [10%N].

(** [join]: the [join] method of the empty string, on [parts]. *)
Definition join (parts : list str) : str := concat parts.

(** [sep.join(parts)] *)
Fixpoint join_with (sep : str) (parts : list str) : str :=
  match parts with
  | [] => []
  | [p] => p
  | p :: rest => p ++ sep ++ join_with sep rest
  end.

Fixpoint str_eqb (a b : str) : bool :=
  match a, b with
  | [], [] => true
  | x :: a', y :: b' => (x =? y)%N && str_eqb a' b'
  | _, _ => false
  end.

(** [s.startswith(p)] *)
Fixpoint startswith (p s : str) : bool :=
  match p, s with
  | [], _ => true
  | x :: p', y :: s' => (x =? y)%N && startswith p' s'
  | _ :: _, [] => false
  end.

(** [p in s] for strings: [p] occurs in [s] as a substring. *)
Fixpoint contains (p s : str) : bool :=
  startswith p s ||
  match s with
  | [] => false
  | _ :: s' => contains p s'
  end.

(** The characters [str.strip()] removes: CPython's [Py_UNICODE_ISSPACE]. *)
Definition is_space (c : char) : bool :=
  ((9 <=? c) && (c <=? 13) || (28 <=? c) && (c <=? 32)
   || (c =? 133) || (c =? 160) || (c =? 5760)
   || (8192 <=? c) && (c <=? 8202)
   || (c =? 8232) || (c =? 8233) || (c =? 8239) || (c =? 8287)
   || (c =? 12288))%N.

Fixpoint lstrip (s : str) : str :=
  match s with
  | [] => []
  | c :: s' => if is_space c then lstrip s' else s
  end.

Definition rstrip (s : str) : str := rev (lstrip (rev s)).

(** [s.strip()] *)
Definition strip (s : str) : str := rstrip (lstrip s).

(** Line boundaries of [str.splitlines()]. *)
Definition is_linebreak (c : char) : bool :=
  ((10 <=? c) && (c <=? 13) || (28 <=? c) && (c <=? 30)
   || (c =? 133) || (c =? 8232) || (c =? 8233))%N.

(** [s.splitlines()]: [cur] is the line being read, in reverse.  [\r\n] is
    one boundary, and a boundary at the very end opens no further line. *)
Fixpoint splitlines_aux (cur : str) (s : str) : list str :=
  match s with
  | [] => match cur with [] => [] | _ => [rev cur] end
  | c :: s' =>
      if is_linebreak c then
        rev cur ::
        match s' with
        | c' :: s'' =>
            if ((c =? 13) && (c' =? 10))%N
            then splitlines_aux [] s''
            else splitlines_aux [] s'
        | [] => []
        end
      else splitlines_aux (c :: cur) s'
  end.

Definition splitlines (s : str) : list str := splitlines_aux [] s.

(** [s.split(sep)] for a one-character separator. *)
Fixpoint split_aux (sep : char) (cur : str) (s : str) : list str :=
  match s with
  | [] => [rev cur]
  | c :: s' =>
      if (c =? sep)%N then rev cur :: split_aux sep [] s'
      else split_aux sep (c :: cur) s'
  end.

Definition split (sep : char) (s : str) : list str := split_aux sep [] s.

(** [s.split(sep, 1)]: at most one cut, at the first separator. *)
Fixpoint split1_aux (sep : char) (cur : str) (s : str) : list str :=
  match s with
  | [] => [rev cur]
  | c :: s' =>
      if (c =? sep)%N then [rev cur; s'] else split1_aux sep (c :: cur) s'
  end.

Definition split1 (sep : char) (s : str) : list str := split1_aux sep [] s.

(** [s.replace(old, empty)] for a non-empty [old]: every occurrence, found from
    the left and not overlapping, is removed. *)
Fixpoint remove_all_aux (old : str) (fuel : nat) (s : str) : str :=
  match fuel with
  | O => s
  | S fuel' =>
      match s with
      | [] => []
      | c :: s' =>
          if startswith old s
          then remove_all_aux old fuel' (skipn (length old) s)
          else c :: remove_all_aux old fuel' s'
      end
  end.

Definition remove_all (old s : str) : str := remove_all_aux old (length s) s.

(** [s[:n]] *)
Definition slice_to (n : nat) (s : str) : str := firstn n s.

(** ASCII decimal digits.  Python's [\d] also matches the other characters of
    Unicode category Nd; on strings without such characters [is_digit] is
    what [\d] matches. *)
Definition is_digit (c : char) : bool := ((48 <=? c) && (c <=? 57))%N.

Fixpoint drop_digits (r : str) : str :=
  match r with
  | [] => []
  | c :: r' => if is_digit c then drop_digits r' else r
  end.

(** [re.sub(r'p?\d+$', '', dev)].  The pattern can only match a suffix: an
    optional [p], then one or more digits, then the end of the string or the
    newline that ends the string (Python's [$] without MULTILINE).  The
    leftmost match takes all the trailing digits and the [p] before them,
    and nothing can match after it.  The function works on the reversed
    string. *)
Definition re_sub_partnum (dev : str) : str :=
  let r := rev dev in
  let '(tail, body) :=
    match r with
    | c :: r' => if (c =? 10)%N then ([c], r') else ([], r)
    | [] => ([], [])
    end in
  match body with
  | c :: _ =>
      if is_digit c then
        let rest := drop_digits body in
        let rest' :=
          match rest with
          | c' :: rest'' => if (c' =? 112)%N then rest'' else rest
          | [] => []
          end in
        rev rest' ++ tail
      else dev
  | [] => dev
  end.

(** Lexicographic order on code points: [<] on Python strings. *)
Fixpoint str_ltb (a b : str) : bool :=
  match a, b with
  | _, [] => false
  | [], _ :: _ => true
  | x :: a', y :: b' => (x <? y)%N || ((x =? y)%N && str_ltb a' b')
  end.

(* ================================================================== *)
(** ** Numbers and their text *)

Fixpoint digits_of_uint (u : Decimal.uint) : str :=
  match u with
  | Decimal.Nil => []
  | Decimal.D0 r => 48%N :: digits_of_uint r
  | Decimal.D1 r => 49%N :: digits_of_uint r
  | Decimal.D2 r => 50%N :: digits_of_uint r
  | Decimal.D3 r => 51%N :: digits_of_uint r
  | Decimal.D4 r => 52%N :: digits_of_uint r
  | Decimal.D5 r => 53%N :: digits_of_uint r
  | Decimal.D6 r => 54%N :: digits_of_uint r
  | Decimal.D7 r => 55%N :: digits_of_uint r
  | Decimal.D8 r => 56%N :: digits_of_uint r
  | Decimal.D9 r => 57%N :: digits_of_uint r
  end.

Definition str_of_N (n : N) : str := digits_of_uint (N.to_uint n).

(** [str(n)] for a Python [int]. *)
Definition str_of_Z (z : Z) : str :=
  if (z <? 0)%Z then 45%N :: str_of_N (Z.abs_N z) else str_of_N (Z.abs_N z).

Definition Qltb (a b : Q) : bool := negb (Qle_bool b a).

(** Rounding to the nearest integer, ties to the even one. *)
Definition round_half_even (q : Q) : Z :=
  let n := Qnum q in
  let d := Zpos (Qden q) in
  let fl := (n / d)%Z in
  match (2 * (n mod d) ?= d)%Z with
  | Lt => fl
  | Gt => (fl + 1)%Z
  | Eq => if Z.even fl then fl else (fl + 1)%Z
  end.

Fixpoint pad_zeros (k : nat) (s : str) : str :=
  match k with
  | O => s
  | S k' => if Nat.ltb (length s) k then pad_zeros k' (48%N :: s) else s
  end.

(** [f"{q:.kf}"]: sign, integer part, and [k] decimals after a point (no
    point when [k] is 0).  A negative value that rounds to zero keeps its
    sign, as in Python. *)
Definition fmt_fixed (k : nat) (q : Q) : str :=
  let scale := (10 ^ Z.of_nat k)%Z in
  let m := Z.abs (round_half_even (q * inject_Z scale)%Q) in
  (if Qltb q 0%Q then [45%N] else []) ++
  str_of_Z (m / scale) ++
  match k with
  | O => []
  | S _ => 46%N :: pad_zeros k (str_of_Z (m mod scale))
  end.

(* ================================================================== *)
(** ** Exceptions and the collector monad *)

(** The exception classes that appear in the program's handlers, with the
    classes they derive from. *)
Inductive exn : Type :=
  | BaseException | KeyboardInterrupt | Exception
  | OSError | FileNotFoundError | PermissionError
  | SubprocessError | TimeoutExpired
  | ValueError | JSONDecodeError | UnicodeDecodeError
  | TypeError | AttributeError
  | PsutilError | AccessDenied.

Definition exn_eq_dec (a b : exn) : {a = b} + {a <> b}.
Proof. decide equality. Defined.

Definition exn_base (e : exn) : option exn :=
  match e with
  | BaseException => None
  | KeyboardInterrupt => Some BaseException
  | Exception => Some BaseException
  | OSError => Some Exception
  | FileNotFoundError => Some OSError
  | PermissionError => Some OSError
  | SubprocessError => Some Exception
  | TimeoutExpired => Some SubprocessError
  | ValueError => Some Exception
  | JSONDecodeError => Some ValueError
  | UnicodeDecodeError => Some ValueError
  | TypeError => Some Exception
  | AttributeError => Some Exception
  | PsutilError => Some Exception
  | AccessDenied => Some PsutilError
  end.

Fixpoint derives_from (depth : nat) (e cls : exn) : bool :=
  if exn_eq_dec e cls then true
  else match depth with
       | O => false
       | S d => match exn_base e with
                | Some b => derives_from d b cls
                | None => false
                end
       end.

(** Whether [except cls] catches [e]. *)
Definition isinstance (e cls : exn) : bool := derives_from 4 e cls.

Inductive outcome (A : Type) : Type :=
  | Returns (a : A)
  | Raises (e : exn).
Arguments Raises {A} e.

(** What the instrumentation of a run records: the commands handed to
    [run_cmd], the one place where the program itself calls
    [subprocess.run] ([Spawn]), and the calls of the two library probes of
    the fallback chains ([Call]).  What a library does inside a call (the
    [uname -p] of [platform.processor()] on Linux, the browser of
    [webbrowser.open]) is not recorded. *)
Inductive event : Type :=
  | Spawn (cmd : list str)
  | Call (name : str).

Definition M (A : Type) : Type := (outcome A * list event)%type.

Definition ret {A} (a : A) : M A := (Returns a, []).

Definition raise {A} (e : exn) : M A := (Raises e, []).

Definition bind {A B} (m : M A) (f : A -> M B) : M B :=
  match m with
  | (Returns a, t) => let '(r, t') := f a in (r, t ++ t')
  | (Raises e, t) => (Raises e, t)
  end.

(** A probe of the environment: its outcome, and its event in the trace. *)
Definition probe {A} (ev : event) (o : outcome A) : M A := (o, [ev]).

(** A read of the environment that is not an adapter invocation. *)
Definition lift {A} (o : outcome A) : M A := (o, []).

(** [try: body / except classes: handler] *)
Definition try_except {A} (body : M A) (classes : list exn) (handler : M A) : M A :=
  match body with
  | (Returns a, t) => (Returns a, t)
  | (Raises e, t) =>
      if existsb (isinstance e) classes
      then let '(r, t') := handler in (r, t ++ t')
      else (Raises e, t)
  end.

Declare Scope monad_scope.
Delimit Scope monad_scope with monad.
Notation "x <- m ;; k" := (bind m (fun x => k))
  (at level 61, m at next level, right associativity) : monad_scope.
Notation "' p <- m ;; k" := (bind m (fun x => let p := x in k))
  (at level 61, p pattern, m at next level, right associativity) : monad_scope.
Local Open Scope monad_scope.

(** [for x in xs: acc = body(acc, x)] *)
Fixpoint for_each {A S} (xs : list A) (acc : S) (body : S -> A -> M S) : M S :=
  match xs with
  | [] => ret acc
  | x :: rest => acc' <- body acc x ;; for_each rest acc' body
  end.

Definition trace {A} (m : M A) : list event := snd m.
Definition result {A} (m : M A) : outcome A := fst m.

(* ================================================================== *)
(** ** Python values read from JSON and from py-cpuinfo *)

(** The values [json.loads] and [cpuinfo.get_cpu_info] hand to the program.
    Numbers are integers; a [dict] is the list of its items in order, with
    distinct keys. *)
#[local] Unset Elimination Schemes.
Inductive pyval : Type :=
  | PNone
  | PBool (b : bool)
  | PInt (z : Z)
  | PStr (s : str)
  | PList (l : list pyval)
  | PDict (d : list (str * pyval)).
#[local] Set Elimination Schemes.

Fixpoint assoc {V} (k : str) (d : list (str * V)) : option V :=
  match d with
  | [] => None
  | (k', v) :: d' => if str_eqb k k' then Some v else assoc k d'
  end.

(** [d.get(k, default)] on a [dict]. *)
Definition dict_get {V} (d : list (str * V)) (k : str) (default : V) : V :=
  match assoc k d with
  | Some v => v
  | None => default
  end.

(** [v.get(k, default)]: only a [dict] has the method. *)
Definition py_get (v : pyval) (k : str) (default : pyval) : M pyval :=
  match v with
  | PDict d => ret (dict_get d k default)
  | _ => raise AttributeError
  end.

(** Truth value of a Python object. *)
Definition truthy (v : pyval) : bool :=
  match v with
  | PNone => false
  | PBool b => b
  | PInt z => negb (z =? 0)%Z
  | PStr s => match s with [] => false | _ => true end
  | PList l => match l with [] => false | _ => true end
  | PDict d => match d with [] => false | _ => true end
  end.

(** [a or b] *)
Definition py_or (a b : pyval) : pyval := if truthy a then a else b.

(** [v == s] and [v != s] against a string. *)
Definition py_eq_str (v : pyval) (s : str) : bool :=
  match v with
  | PStr t => str_eqb t s
  | _ => false
  end.

(** [s in v] for a string [s]. *)
Definition py_contains (v : pyval) (s : str) : M bool :=
  match v with
  | PList l => ret (existsb (fun x => py_eq_str x s) l)
  | PStr t => ret (contains s t)
  | PDict d => ret (existsb (fun kv => str_eqb (fst kv) s) d)
  | _ => raise TypeError
  end.

(** [for x in v] *)
Definition py_iter (v : pyval) : M (list pyval) :=
  match v with
  | PList l => ret l
  | PStr t => ret (map (fun c => PStr [c]) t)
  | PDict d => ret (map (fun kv => PStr (fst kv)) d)
  | _ => raise TypeError
  end.

(** A value used as a number: an [int], or a [bool] as 0 or 1. *)
Definition py_number (v : pyval) : M Q :=
  match v with
  | PInt z => ret (inject_Z z)
  | PBool b => ret (if b then 1%Q else 0%Q)
  | _ => raise TypeError
  end.

(** [v.strip()] and [v.upper()]: string methods. *)
Definition py_strip (v : pyval) : M str :=
  match v with
  | PStr s => ret (strip s)
  | _ => raise AttributeError
  end.

(* ================================================================== *)
(** ** The environment *)

Record CompletedProcess : Type := {
  returncode : Z;
  stdout : str
}.

Record uname_result : Type := {
  system : str;
  node : str;
  release : str;
  version : str;
  machine : str
}.

Record scpufreq : Type := {
  freq_current : Q;
  freq_min : Q;
  freq_max : Q
}.

Record shwtemp : Type := {
  temp_label : str;
  temp_current : Q;
  temp_high : option Q;
  temp_critical : option Q
}.

Record svmem : Type := {
  vm_total : Z;
  vm_available : Z;
  vm_percent : Q;
  vm_used : Z;
  vm_cached : option Z;     (* the attribute exists on some platforms only *)
  vm_buffers : option Z
}.

Record sswap : Type := {
  swap_total : Z;
  swap_used : Z;
  swap_percent : Q
}.

Record sdiskpart : Type := {
  device : str;
  mountpoint : str;
  fstype : str;
  opts : str
}.

Record sdiskusage : Type := {
  du_total : Z;
  du_used : Z;
  du_free : Z;
  du_percent : Q
}.

Record sdiskio : Type := {
  read_count : Z;
  write_count : Z;
  read_bytes : Z;
  write_bytes : Z;
  read_time : Z;
  write_time : Z
}.

Record snicaddr : Type := {
  family : str;              (* [str(addr.family)] *)
  address : option str;
  netmask : option str;
  broadcast : option str
}.

Record snicstats : Type := {
  isup : bool;
  duplex : Z;
  speed : Z;
  mtu : Z
}.

Record snetio : Type := {
  bytes_sent : Z;
  bytes_recv : Z;
  packets_sent : Z;
  packets_recv : Z;
  errin : Z;
  errout : Z;
  dropin : Z;
  dropout : Z
}.

(** The [psutil] module, when it could be imported.  A call that the program
    guards with a handler has an [outcome]; the others return. *)
Record Psutil : Type := {
  boot_time : str;   (* [datetime.fromtimestamp(psutil.boot_time()).strftime(...)] *)
  cpu_count_physical : option Z;
  cpu_count_logical : option Z;
  cpu_freq : option scpufreq;
  cpu_percent : Q;                    (* [cpu_percent(interval=1)] *)
  cpu_percent_percpu : list Q;        (* [cpu_percent(interval=0.5, percpu=True)] *)
  sensors_temperatures : option (list (str * list shwtemp));
                                      (* [None]: the module has no such attribute *)
  virtual_memory : svmem;
  swap_memory : sswap;
  disk_partitions : list sdiskpart;
  disk_usage : str -> outcome sdiskusage;
  disk_io_counters : outcome (option (list (str * sdiskio)));
  net_if_addrs : list (str * list snicaddr);
  net_if_stats : list (str * snicstats);
  net_io_counters : list (str * snetio);
  net_connections : outcome (list str)   (* the [status] of each connection *)
}.

(** A GPU as [GPUtil.getGPUs()] describes it. *)
Record GPU : Type := {
  gpu_id : Z;
  gpu_name : str;
  gpu_driver : str;
  memoryTotal : Q;
  memoryUsed : Q;
  memoryFree : Q;
  memoryUtil : Q;
  load : Q;
  temperature : str          (* [str(gpu.temperature)] *)
}.

Record World : Type := {
  (* optional modules: [None] when the import failed *)
  psutil : option Psutil;
  cpuinfo : option (list (str * pyval));         (* [cpuinfo.get_cpu_info()] *)
  GPUtil : option (outcome (list GPU));          (* [GPUtil.getGPUs()] *)
  (* platform, socket, clock *)
  uname : uname_result;
  processor : str;
  python_version : str;
  gethostname : str;
  getfqdn : outcome str;
  gethostbyname : outcome str;                   (* of [gethostname] *)
  now : str;                                     (* [datetime.now().strftime(...)] *)
  (* external tools *)
  which : str -> bool;                           (* [shutil.which(name)] finds a path *)
  run : list str -> Z -> outcome CompletedProcess;
                                                 (* [subprocess.run(cmd, ..., timeout=t)] *)
  (* library functions *)
  json_loads : str -> outcome pyval;
  py_repr : pyval -> str;                        (* [str(v)] of a [list] or [dict] *)
  str_upper : str -> str                         (* [s.upper()] *)
}.

(** [platform.system()] *)
Definition platform_system (w : World) : str := system (uname w).

(** [str(v)], which is also [f"{v}"]. *)
Definition py_str (w : World) (v : pyval) : str :=
  match v with
  | PNone => lit "None"
  | PBool true => lit "True"
  | PBool false => lit "False"
  | PInt z => str_of_Z z
  | PStr s => s
  | PList _ | PDict _ => py_repr w v
  end.

Definition py_upper (w : World) (v : pyval) : M str :=
  match v with
  | PStr s => ret (str_upper w s)
  | _ => raise AttributeError
  end.

(* ================================================================== *)
(** ** Helpers *)

Fixpoint fmt_bytes_loop (units : list str) (nbytes : Q) (suffix : str) : str :=
  match units with
  | [] => fmt_fixed 2 nbytes ++ lit " E" ++ suffix
  | unit :: rest =>
      if Qltb (Qabs nbytes) (1024 # 1)%Q
      then fmt_fixed 2 nbytes ++ lit " " ++ unit ++ suffix
      else fmt_bytes_loop rest (nbytes / (1024 # 1))%Q suffix
  end.

(** [fmt_bytes(nbytes)], suffix ["B"].  The divisions by 1024 are exact
    here; those of the source are exact as long as the count is an integer
    below [2 ^ 53] in size, and round beyond. *)
Definition fmt_bytes (nbytes : Q) : str :=
  fmt_bytes_loop [[]; lit "K"; lit "M"; lit "G"; lit "T"; lit "P"] nbytes (lit "B").

(** [fmt_bytes] on a value read from JSON: [abs] and [<] need a number. *)
Definition fmt_bytes_py (v : pyval) : M str :=
  n <- py_number v ;; ret (fmt_bytes n).

(** [subprocess.run(cmd, capture_output=True, text=True, timeout=timeout)] *)
Definition subprocess_run (w : World) (cmd : list str) (timeout : Z) : M CompletedProcess :=
  probe (Spawn cmd) (run w cmd timeout).

Definition run_cmd_timeout (w : World) (cmd : list str) (timeout : Z) : M (option str) :=
  try_except
    (result <- subprocess_run w cmd timeout ;;
     if (returncode result =? 0)%Z
     then ret (Some (strip (stdout result)))
     else ret None)
    [FileNotFoundError; TimeoutExpired; OSError]
    (ret None).

(** [run_cmd(cmd)], with the default timeout of 10 seconds. *)
Definition run_cmd (w : World) (cmd : list str) : M (option str) :=
  run_cmd_timeout w cmd 10%Z.

(** [if output:] on the result of [run_cmd]: neither [None] nor the empty string. *)
Definition nonempty_output (output : option str) : option str :=
  match output with
  | Some (c :: s) => Some (c :: s)
  | _ => None
  end.

(** [s.replace(old, new)] for a one-character [old]. *)
Definition replace_char (old : char) (new : str) (s : str) : str :=
  flat_map (fun c => if (c =? old)%N then new else [c]) s.

(** [html.escape(s)], with [quote=True]: five replacements, [&] first. *)
Definition html_escape (s : str) : str :=
  let s := replace_char 38%N (lit "&amp;") s in
  let s := replace_char 60%N (lit "&lt;") s in
  let s := replace_char 62%N (lit "&gt;") s in
  let s := replace_char 34%N (lit "&quot;") s in
  let s := replace_char 39%N (lit "&#x27;") s in
  s.

(** [esc(text)]; [text] is already the [str] of the object. *)
Definition esc (text : str) : str := html_escape text.

Definition make_table (rows : list (list str)) (headers : option (list str)) : str :=
  let h := lit "<table>" ++ nl in
  let h :=
    match headers with
    | Some (hdr0 :: hdrs) =>
        let h := h ++ lit "<thead><tr>" in
        let h := fold_left (fun h hdr => h ++ lit "<th>" ++ esc hdr ++ lit "</th>")
                           (hdr0 :: hdrs) h in
        h ++ lit "</tr></thead>" ++ nl
    | _ => h
    end in
  let h := h ++ lit "<tbody>" ++ nl in
  let h :=
    fold_left
      (fun h row =>
         let h := h ++ lit "<tr>" in
         let h := fold_left (fun h cell => h ++ lit "<td>" ++ esc cell ++ lit "</td>") row h in
         h ++ lit "</tr>" ++ nl)
      rows h in
  h ++ lit "</tbody></table>" ++ nl.

Definition make_kv_table (rows : list (list str)) : str :=
  let h := markup "<table class='kv'><tbody>" ++ nl in
  let h :=
    fold_left
      (fun h row =>
         let key := match row with k :: _ => esc k | _ => [] end in
         let val := match row with _ :: v :: _ => esc v | _ => [] end in
         h ++ markup "<tr><td class='kv-key'>" ++ key
           ++ markup "</td><td class='kv-val'>" ++ val ++ lit "</td></tr>" ++ nl)
      rows h in
  h ++ lit "</tbody></table>" ++ nl.

(** [min(a, b)] and [max(a, b)] as Python computes them: the first argument
    unless the second is strictly smaller (larger). *)
Definition py_min (a b : Q) : Q := if Qltb b a then b else a.
Definition py_max (a b : Q) : Q := if Qltb a b then b else a.

Definition progress_bar (percent : Q) (color : str) : str :=
  let clamped := py_max 0%Q (py_min (100 # 1)%Q percent) in
  markup "<div class='progress-bar'>"
  ++ markup "<div class='progress-fill' style='width:" ++ fmt_fixed 1 clamped
  ++ lit "%;background:" ++ color ++ markup ";'></div>"
  ++ markup "<span class='progress-label'>" ++ fmt_fixed 1 percent ++ lit "%</span>"
  ++ lit "</div>".

(** The default of [progress_bar]'s [color]. *)
Definition accent : str := lit "var(--accent)".

Definition make_card (title icon content card_id : str) : str :=
  let id_attr :=
    match card_id with
    | [] => []
    | _ => markup " id='" ++ card_id ++ markup "'"
    end in
  markup "<section class='card'" ++ id_attr ++ lit ">"
  ++ markup "<div class='card-header'><span class='card-icon'>" ++ icon ++ lit "</span>"
  ++ lit "<h2>" ++ esc title ++ lit "</h2></div>"
  ++ markup "<div class='card-body'>" ++ content ++ lit "</div>"
  ++ lit "</section>" ++ nl.

Definition make_sub (title content : str) : str :=
  markup "<div class='sub-section'><h3>" ++ esc title ++ lit "</h3>" ++ content ++ lit "</div>" ++ nl.

(* ================================================================== *)
(** ** Small Python idioms used by the collectors *)

(** [s or default] on strings. *)
Definition str_or (s default : str) : str :=
  match s with
  | [] => default
  | _ => s
  end.

(** [s or default] on an optional string ([None] and the empty string are
    both false). *)
Definition opt_str_or (s : option str) (default : str) : str :=
  match s with
  | Some (c :: s') => c :: s'
  | _ => default
  end.

(** [str(n or "N/A")] for an optional integer. *)
Definition int_or_na (n : option Z) : str :=
  match n with
  | Some z => if (z =? 0)%Z then lit "N/A" else str_of_Z z
  | None => lit "N/A"
  end.

(** Truth value of a float: not zero. *)
Definition Qtruthy (q : Q) : bool := negb (Qeq_bool q 0%Q).

(** ["var(--green)" if x < lo else "var(--yellow)" if x < hi else "var(--red)"],
    the expression that colours every usage bar. *)
Definition level_color (lo hi : Q) (x : Q) : str :=
  if Qltb x lo then lit "var(--green)"
  else if Qltb x hi then lit "var(--yellow)"
  else lit "var(--red)".

(** [if not isinstance(data, list): data = [data]] *)
Definition as_list (data : pyval) : list pyval :=
  match data with
  | PList l => l
  | _ => [data]
  end.

(** [enumerate(xs)] *)
Fixpoint enumerate_from {A} (i : N) (xs : list A) : list (N * A) :=
  match xs with
  | [] => []
  | x :: rest => (i, x) :: enumerate_from (N.succ i) rest
  end.

Definition enumerate {A} (xs : list A) : list (N * A) := enumerate_from 0%N xs.

(** [<p class="note">text</p>] *)
Definition note (text : str) : str := markup "<p class='note'>" ++ text ++ lit "</p>".

(** [<pre>{esc(output)}</pre>] *)
Definition pre (output : str) : str := lit "<pre>" ++ esc output ++ lit "</pre>".

(* ================================================================== *)
(** ** Data collectors *)

Definition collect_system_summary (w : World) : M str :=
  let u := uname w in
  let rows :=
    [ [lit "Operating System"; system u ++ lit " " ++ release u];
      [lit "OS Version"; version u];
      [lit "Machine Architecture"; machine u];
      [lit "Node Name"; node u];
      [lit "Python Version"; python_version w] ] in
  let rows :=
    match psutil w with
    | Some ps => rows ++ [[lit "Boot Time"; boot_time ps]]
    | None => rows
    end in
  ret (make_kv_table rows).

(** *** CPU *)

Definition notable_flags : list str :=
  [lit "sse4_2"; lit "avx"; lit "avx2"; lit "avx512f"; lit "aes"; lit "fma3"; lit "fma4"].

(** The rows read from py-cpuinfo. *)
Definition cpuinfo_rows (w : World) (info : list (str * pyval)) : M (list (list str)) :=
  let get k default := py_str w (dict_get info (lit k) default) in
  let na := PStr (lit "N/A") in
  let q := PStr (lit "?") in
  let rows :=
    [ [lit "Brand"; get "brand_raw" na];
      [lit "Vendor"; get "vendor_id_raw" na];
      [lit "Family / Model / Stepping";
       get "family" q ++ lit " / " ++ get "model" q ++ lit " / " ++ get "stepping" q];
      [lit "Arch (detailed)";
       py_str w (dict_get info (lit "arch_string_raw") (dict_get info (lit "arch") na))];
      [lit "Base Frequency"; get "hz_advertised_friendly" na];
      [lit "Current Frequency"; get "hz_actual_friendly" na] ] in
  let l2 := dict_get info (lit "l2_cache_size") na in
  let l3 := dict_get info (lit "l3_cache_size") na in
  let rows := if py_eq_str l2 (lit "N/A") then rows else rows ++ [[lit "L2 Cache"; py_str w l2]] in
  let rows := if py_eq_str l3 (lit "N/A") then rows else rows ++ [[lit "L3 Cache"; py_str w l3]] in
  let flags := dict_get info (lit "flags") (PList []) in
  notable <- for_each notable_flags []
               (fun acc f => b <- py_contains flags f ;; ret (if b then acc ++ [f] else acc)) ;;
  match notable with
  | [] => ret rows
  | _ => ret (rows ++ [[lit "Notable Extensions"; join_with (lit ", ") notable]])
  end.

(** The rows read from psutil. *)
Definition psutil_cpu_rows (ps : Psutil) : list (list str) :=
  let rows :=
    [ [lit "Physical Cores"; int_or_na (cpu_count_physical ps)];
      [lit "Logical Cores"; int_or_na (cpu_count_logical ps)] ] in
  match cpu_freq ps with
  | Some freq =>
      let rows := rows ++ [[lit "Freq (current)"; fmt_fixed 2 (freq_current freq) ++ lit " MHz"]] in
      let rows :=
        if Qtruthy (freq_min freq)
        then rows ++ [[lit "Freq (min)"; fmt_fixed 2 (freq_min freq) ++ lit " MHz"]]
        else rows in
      if Qtruthy (freq_max freq)
      then rows ++ [[lit "Freq (max)"; fmt_fixed 2 (freq_max freq) ++ lit " MHz"]]
      else rows
  | None => rows
  end.

Definition cpu_specification_rows (w : World) : M (list (list str)) :=
  let rows :=
    [ [lit "Processor"; str_or (processor w) (lit "N/A")];
      [lit "Architecture"; machine (uname w)] ] in
  rows <-
    match cpuinfo w with
    | Some info => more <- cpuinfo_rows w info ;; ret (rows ++ more)
    | None => ret (rows ++ [[lit "[py-cpuinfo]";
                             lit "Not installed — install for detailed CPU info"]])
    end ;;
  match psutil w with
  | Some ps => ret (rows ++ psutil_cpu_rows ps)
  | None => ret rows
  end.

Definition metric_row (label bar : str) : str :=
  markup "<div class='metric-row'><span class='metric-label'>" ++ label ++ lit "</span>"
  ++ bar ++ lit "</div>".

Definition cpu_usage_html (ps : Psutil) : str :=
  let overall := cpu_percent ps in
  let usage_html := metric_row (lit "Overall CPU Usage") (progress_bar overall accent) in
  fold_left
    (fun usage_html '(i, u) =>
       let color := level_color (50 # 1) (80 # 1) u in
       usage_html ++ metric_row (lit "Core " ++ str_of_N i) (progress_bar u color))
    (enumerate (cpu_percent_percpu ps)) usage_html.

Definition temp_text (t : option Q) : str :=
  match t with
  | Some v => if Qtruthy v then fmt_fixed 1 v ++ lit "°C" else lit "N/A"
  | None => lit "N/A"
  end.

(** The temperature chain works on the pair [(temp_html, temp_found)]. *)
Definition temp_state : Type := (str * bool)%type.

(** First candidate: [psutil.sensors_temperatures()]. *)
Definition cpu_temp_psutil (w : World) (st : temp_state) : M temp_state :=
  match psutil w with
  | Some ps =>
      match sensors_temperatures ps with
      | Some readings =>
          temps <- probe (Call (lit "psutil.sensors_temperatures")) (Returns readings) ;;
          let temp_rows :=
            flat_map
              (fun '(chip, entries) =>
                 map (fun entry =>
                        [ chip ++ lit ": " ++ str_or (temp_label entry) (lit "N/A");
                          temp_text (Some (temp_current entry));
                          temp_text (temp_high entry);
                          temp_text (temp_critical entry) ])
                     entries)
              temps in
          match temp_rows with
          | [] => ret st
          | _ => ret (make_table temp_rows
                        (Some [lit "Sensor"; lit "Current"; lit "High"; lit "Critical"]),
                      true)
          end
      | None => ret st
      end
  | None => ret st
  end.

(** Second candidate, on Linux: the [sensors] tool. *)
Definition cpu_temp_sensors (w : World) (st : temp_state) : M temp_state :=
  if negb (snd st) && str_eqb (platform_system w) (lit "Linux") then
    output <- run_cmd w [lit "sensors"] ;;
    match nonempty_output output with
    | Some output => ret (pre output, true)
    | None => ret st
    end
  else ret st.

Definition thermal_zone_cmd : list str :=
  [ lit "powershell"; lit "-Command";
    lit "Get-CimInstance MSAcpi_ThermalZoneTemperature -Namespace root/wmi "
    ++ lit "| Select-Object InstanceName,CurrentTemperature | ConvertTo-Json" ].

(** Third candidate, on Windows: the ACPI thermal zones. *)
Definition cpu_temp_windows (w : World) (st : temp_state) : M temp_state :=
  if negb (snd st) && str_eqb (platform_system w) (lit "Windows") then
    output <- run_cmd w thermal_zone_cmd ;;
    match nonempty_output output with
    | Some output =>
        try_except
          (data <- lift (json_loads w output) ;;
           temp_rows <- for_each (as_list data) []
             (fun temp_rows entry =>
                kelvin_tenths <- py_get entry (lit "CurrentTemperature") (PInt 0) ;;
                k <- py_number kelvin_tenths ;;
                let celsius := (k / (10 # 1) - (27315 # 100))%Q in
                name <- py_get entry (lit "InstanceName") (PStr (lit "Unknown")) ;;
                ret (temp_rows ++ [[py_str w name; fmt_fixed 1 celsius ++ lit "°C"]])) ;;
           ret (make_kv_table temp_rows, true))
          [JSONDecodeError]
          (ret st)
    | None => ret st
    end
  else ret st.

Definition cpu_temp_note : str :=
  note (lit "Temperature data not available (install lm-sensors on Linux, or run as admin on Windows)").

Definition cpu_temperature (w : World) : M str :=
  st <- cpu_temp_psutil w ([], false) ;;
  st <- cpu_temp_sensors w st ;;
  st <- cpu_temp_windows w st ;;
  ret (if snd st then fst st else cpu_temp_note).

Definition collect_cpu_info (w : World) : M str :=
  rows <- cpu_specification_rows w ;;
  let parts := [make_sub (lit "Specifications") (make_kv_table rows)] in
  let parts :=
    match psutil w with
    | Some ps => parts ++ [make_sub (lit "Usage") (cpu_usage_html ps)]
    | None => parts
    end in
  temp_html <- cpu_temperature w ;;
  let parts := parts ++ [make_sub (lit "Temperature") temp_html] in
  ret (join parts).

(** *** Memory *)

Definition memory_usage_html (ps : Psutil) : str :=
  let vm := virtual_memory ps in
  let color := level_color (60 # 1) (85 # 1) (vm_percent vm) in
  let usage_html :=
    metric_row (lit "RAM (" ++ fmt_bytes (inject_Z (vm_used vm)) ++ lit " / "
                ++ fmt_bytes (inject_Z (vm_total vm)) ++ lit ")")
               (progress_bar (vm_percent vm) color) in
  let getattr_or_0 (a : option Z) := match a with Some z => z | None => 0%Z end in
  let rows :=
    [ [lit "Total RAM"; fmt_bytes (inject_Z (vm_total vm))];
      [lit "Available"; fmt_bytes (inject_Z (vm_available vm))];
      [lit "Used"; fmt_bytes (inject_Z (vm_used vm))];
      [lit "Cached"; fmt_bytes (inject_Z (getattr_or_0 (vm_cached vm)))];
      [lit "Buffers"; fmt_bytes (inject_Z (getattr_or_0 (vm_buffers vm)))] ] in
  let usage_html := usage_html ++ make_kv_table rows in
  let swap := swap_memory ps in
  if (0 <? swap_total swap)%Z then
    let swap_color := level_color (50 # 1) (80 # 1) (swap_percent swap) in
    usage_html
    ++ markup "<div class='metric-row' style='margin-top:0.8rem;'><span class='metric-label'>"
    ++ lit "Swap (" ++ fmt_bytes (inject_Z (swap_used swap)) ++ lit " / "
    ++ fmt_bytes (inject_Z (swap_total swap)) ++ lit ")" ++ lit "</span>"
    ++ progress_bar (swap_percent swap) swap_color ++ lit "</div>"
  else usage_html.

(** [d[k] = v] *)
Fixpoint dict_set {V} (k : str) (v : V) (d : list (str * V)) : list (str * V) :=
  match d with
  | [] => [(k, v)]
  | (k', v') :: d' =>
      if str_eqb k k' then (k', v) :: d' else (k', v') :: dict_set k v d'
  end.

Definition dmi_keys : list str :=
  [ lit "Size"; lit "Type"; lit "Speed"; lit "Configured Memory Speed";
    lit "Manufacturer"; lit "Part Number"; lit "Locator"; lit "Form Factor" ].

(** [current_device.get("Size") and "No Module" not in current_device.get("Size", empty)] *)
Definition slot_populated (current_device : list (str * str)) : bool :=
  match assoc (lit "Size") current_device with
  | Some (c :: size) => negb (contains (lit "No Module") (c :: size))
  | _ => false
  end.

(** One line of [dmidecode -t memory], on [(current_device, devices)]. *)
Definition dmi_line (st : list (str * str) * list (list (str * str))) (line : str)
  : list (str * str) * list (list (str * str)) :=
  let '(current_device, devices) := st in
  let line := strip line in
  let '(current_device, devices) :=
    if startswith (lit "Memory Device") line then
      ([], if slot_populated current_device then devices ++ [current_device] else devices)
    else (current_device, devices) in
  let current_device :=
    fold_left
      (fun current_device key =>
         if startswith (key ++ lit ":") line
         then dict_set key (strip (nth 1 (split1 58%N line) [])) current_device
         else current_device)
      dmi_keys current_device in
  (current_device, devices).

Definition parse_dmidecode (output : str) : list (list (str * str)) :=
  let '(current_device, devices) := fold_left dmi_line (splitlines output) ([], []) in
  if slot_populated current_device then devices ++ [current_device] else devices.

Definition module_headers : option (list str) :=
  Some [lit "Slot"; lit "Size"; lit "Type"; lit "Speed"; lit "Manufacturer"; lit "Part Number"].

(** The module chain works on the pair [(module_html, module_found)]. *)
Definition memory_modules_linux (w : World) : M (str * bool) :=
  output <- run_cmd w [lit "sudo"; lit "dmidecode"; lit "-t"; lit "memory"] ;;
  output <-
    match nonempty_output output with
    | None => run_cmd w [lit "dmidecode"; lit "-t"; lit "memory"]
    | Some _ => ret output
    end ;;
  match nonempty_output output with
  | Some output =>
      match parse_dmidecode output with
      | [] => ret ([], false)
      | devices =>
          let mod_rows :=
            map (fun dev =>
                   let get k := dict_get dev (lit k) (lit "N/A") in
                   [ get "Locator"; get "Size"; get "Type"; get "Speed";
                     get "Manufacturer"; strip (get "Part Number") ])
                devices in
          ret (make_table mod_rows module_headers, true)
      end
  | None => ret ([], false)
  end.

Definition smbios_map : list (Z * str) :=
  [ (20, lit "DDR"); (21, lit "DDR2"); (22, lit "DDR2");
    (24, lit "DDR3"); (26, lit "DDR4"); (34, lit "DDR5") ]%Z.

Fixpoint int_dict_get {V} (d : list (Z * V)) (k : Z) (default : V) : V :=
  match d with
  | [] => default
  | (k', v) :: d' => if (k =? k')%Z then v else int_dict_get d' k default
  end.

(** [smbios_map.get(code, default)]: the keys are integers, a [bool] is
    looked up as 0 or 1, other hashable values are not keys, and lists and
    dicts cannot be hashed. *)
Definition smbios_map_get (code : pyval) (default : str) : M str :=
  match code with
  | PInt z => ret (int_dict_get smbios_map z default)
  | PBool b => ret (int_dict_get smbios_map (if b then 1 else 0)%Z default)
  | PNone | PStr _ => ret default
  | PList _ | PDict _ => raise TypeError
  end.

(** The label of a memory-type code. *)
Definition smbios_label (w : World) (mem_type_code : pyval) : M str :=
  smbios_map_get mem_type_code (lit "Type " ++ py_str w mem_type_code).

Definition physical_memory_cmd : list str :=
  [ lit "powershell"; lit "-Command";
    lit "Get-CimInstance Win32_PhysicalMemory | "
    ++ lit "Select-Object BankLabel,Capacity,SMBIOSMemoryType,Speed,"
    ++ lit "Manufacturer,PartNumber | ConvertTo-Json" ].

Definition memory_module_row (w : World) (m : pyval) : M (list str) :=
  capacity <- py_get m (lit "Capacity") (PInt 0) ;;
  cap <- fmt_bytes_py capacity ;;
  mem_type_code <- py_get m (lit "SMBIOSMemoryType") (PInt 0) ;;
  mem_type <- smbios_label w mem_type_code ;;
  bank <- py_get m (lit "BankLabel") (PStr (lit "N/A")) ;;
  speed <- py_get m (lit "Speed") (PStr (lit "N/A")) ;;
  manufacturer <- py_get m (lit "Manufacturer") (PStr (lit "N/A")) ;;
  part_number <- py_get m (lit "PartNumber") PNone ;;
  part <- py_strip (py_or part_number (PStr (lit "N/A"))) ;;
  ret [ py_str w bank; cap; mem_type; py_str w speed ++ lit " MT/s";
        py_str w manufacturer; part ].

Definition memory_modules_windows (w : World) : M (str * bool) :=
  output <- run_cmd w physical_memory_cmd ;;
  match nonempty_output output with
  | Some output =>
      try_except
        (data <- lift (json_loads w output) ;;
         mod_rows <- for_each (as_list data) []
           (fun mod_rows m => row <- memory_module_row w m ;; ret (mod_rows ++ [row])) ;;
         ret (make_table mod_rows module_headers, true))
        [JSONDecodeError]
        (ret ([], false))
  | None => ret ([], false)
  end.

Definition memory_modules_darwin (w : World) : M (str * bool) :=
  output <- run_cmd w [lit "system_profiler"; lit "SPMemoryDataType"] ;;
  match nonempty_output output with
  | Some output => ret (pre output, true)
  | None => ret ([], false)
  end.

Definition memory_modules_note : str :=
  note (lit "Module details not available (may require sudo on Linux, or admin on Windows)").

Definition memory_modules (w : World) : M str :=
  st <-
    (if str_eqb (platform_system w) (lit "Linux") then memory_modules_linux w
     else if str_eqb (platform_system w) (lit "Windows") then memory_modules_windows w
     else if str_eqb (platform_system w) (lit "Darwin") then memory_modules_darwin w
     else ret ([], false)) ;;
  ret (if snd st then fst st else memory_modules_note).

Definition memory_psutil_note : str :=
  note (lit "psutil not installed — install for memory usage info").

Definition collect_memory_info (w : World) : M str :=
  let parts :=
    match psutil w with
    | Some ps => [make_sub (lit "Usage") (memory_usage_html ps)]
    | None => [memory_psutil_note]
    end in
  module_html <- memory_modules w ;;
  let parts := parts ++ [make_sub (lit "Module Details") module_html] in
  ret (join parts).

(** *** GPU *)

(** The GPU chain works on the pair [(parts, gpu_found)]. *)
Definition gpu_state : Type := (list str * bool)%type.

Definition gputil_section (i : N) (gpu : GPU) : str :=
  let mem_pct := (memoryUtil gpu * (100 # 1))%Q in
  let load_pct := (load gpu * (100 # 1))%Q in
  let mem_color := level_color (60 # 1) (85 # 1) mem_pct in
  let load_color := level_color (60 # 1) (85 # 1) load_pct in
  let gpu_html := metric_row (lit "GPU Load") (progress_bar load_pct load_color) in
  let gpu_html :=
    gpu_html
    ++ metric_row (lit "VRAM (" ++ fmt_fixed 0 (memoryUsed gpu) ++ lit " / "
                   ++ fmt_fixed 0 (memoryTotal gpu) ++ lit " MB)")
                  (progress_bar mem_pct mem_color) in
  let rows :=
    [ [lit "GPU ID"; str_of_Z (gpu_id gpu)];
      [lit "Name"; gpu_name gpu];
      [lit "Driver"; gpu_driver gpu];
      [lit "Memory Total"; fmt_fixed 0 (memoryTotal gpu) ++ lit " MB"];
      [lit "Memory Used"; fmt_fixed 0 (memoryUsed gpu) ++ lit " MB"];
      [lit "Memory Free"; fmt_fixed 0 (memoryFree gpu) ++ lit " MB"];
      [lit "Temperature"; temperature gpu ++ lit "°C"] ] in
  let gpu_html := gpu_html ++ make_kv_table rows in
  make_sub (lit "NVIDIA GPU " ++ str_of_N i ++ lit ": " ++ gpu_name gpu) gpu_html.

(** NVIDIA via GPUtil. *)
Definition gpu_gputil (w : World) (st : gpu_state) : M gpu_state :=
  match GPUtil w with
  | Some getGPUs =>
      try_except
        (gpus <- probe (Call (lit "GPUtil.getGPUs")) getGPUs ;;
         match gpus with
         | [] => ret st
         | _ =>
             let parts :=
               fold_left (fun parts '(i, gpu) => parts ++ [gputil_section i gpu])
                         (enumerate gpus) (fst st) in
             ret (parts, true)
         end)
        [Exception]
        (ret st)
  | None => ret st
  end.

Definition nvidia_smi_cmd : list str :=
  [ lit "nvidia-smi";
    lit "--query-gpu=index,name,driver_version,temperature.gpu,utilization.gpu,"
    ++ lit "utilization.memory,memory.total,memory.used,memory.free,clocks.gr,clocks.mem,"
    ++ lit "clocks.max.gr,clocks.max.mem,power.draw,power.limit";
    lit "--format=csv,noheader,nounits" ].

Definition nvidia_smi_section (line : str) : option str :=
  let p := map strip (split 44%N line) in
  if Nat.leb 15 (length p) then
    let f k := nth k p [] in
    let rows :=
      [ [lit "Index"; f 0%nat]; [lit "Name"; f 1%nat]; [lit "Driver"; f 2%nat];
        [lit "Temperature"; f 3%nat ++ lit "°C"];
        [lit "GPU Utilization"; f 4%nat ++ lit "%"];
        [lit "Memory Utilization"; f 5%nat ++ lit "%"];
        [lit "Memory Total"; f 6%nat ++ lit " MiB"];
        [lit "Memory Used"; f 7%nat ++ lit " MiB"];
        [lit "Memory Free"; f 8%nat ++ lit " MiB"];
        [lit "GPU Clock"; f 9%nat ++ lit " MHz"];
        [lit "Memory Clock"; f 10%nat ++ lit " MHz"];
        [lit "Max GPU Clock"; f 11%nat ++ lit " MHz"];
        [lit "Max Memory Clock"; f 12%nat ++ lit " MHz"];
        [lit "Power Draw"; f 13%nat ++ lit " W"];
        [lit "Power Limit"; f 14%nat ++ lit " W"] ] in
    Some (make_sub (lit "NVIDIA GPU " ++ f 0%nat ++ lit ": " ++ f 1%nat) (make_kv_table rows))
  else None.

(** NVIDIA via nvidia-smi directly. *)
Definition gpu_nvidia_smi (w : World) (st : gpu_state) : M gpu_state :=
  if negb (snd st) && which w (lit "nvidia-smi") then
    output <- run_cmd w nvidia_smi_cmd ;;
    match nonempty_output output with
    | Some output =>
        let parts :=
          fold_left
            (fun parts line =>
               match nvidia_smi_section line with
               | Some section => parts ++ [section]
               | None => parts
               end)
            (splitlines output) (fst st) in
        ret (parts, true)
    | None => ret st
    end
  else ret st.

(** AMD via rocm-smi. *)
Definition gpu_rocm_smi (w : World) (st : gpu_state) : M gpu_state :=
  if which w (lit "rocm-smi") then
    output <- run_cmd w [lit "rocm-smi"; lit "--showallinfo"] ;;
    match nonempty_output output with
    | Some output =>
        ret (fst st ++ [make_sub (lit "AMD GPU (rocm-smi)") (pre (slice_to 4000 output))], true)
    | None => ret st
    end
  else ret st.

Definition is_display_line (l : str) : bool :=
  contains (lit "VGA") l || contains (lit "3D") l || contains (lit "Display") l.

(** lspci display adapters (Linux). *)
Definition gpu_lspci (w : World) (st : gpu_state) : M gpu_state :=
  if str_eqb (platform_system w) (lit "Linux") then
    output <- run_cmd w [lit "lspci"] ;;
    match nonempty_output output with
    | Some output =>
        match filter is_display_line (splitlines output) with
        | [] => ret st
        | vga_lines =>
            let adapter_html :=
              markup "<div class='adapter-list'>"
              ++ join (map (fun l => markup "<div class='adapter-item'>" ++ esc l ++ lit "</div>")
                           vga_lines)
              ++ lit "</div>" in
            ret (fst st ++ [make_sub (lit "Detected Display Adapters") adapter_html], true)
        end
    | None => ret st
    end
  else ret st.

Definition video_controller_cmd : list str :=
  [ lit "powershell"; lit "-Command";
    lit "Get-CimInstance Win32_VideoController | "
    ++ lit "Select-Object Name,DriverVersion,AdapterRAM,VideoProcessor,"
    ++ lit "CurrentRefreshRate,Status | ConvertTo-Json" ].

Definition video_controller_section (w : World) (gpu_data : pyval) : M str :=
  name <- py_get gpu_data (lit "Name") (PStr (lit "N/A")) ;;
  adapter_ram <- py_get gpu_data (lit "AdapterRAM") PNone ;;
  video_processor <- py_get gpu_data (lit "VideoProcessor") (PStr (lit "N/A")) ;;
  driver_version <- py_get gpu_data (lit "DriverVersion") (PStr (lit "N/A")) ;;
  ram <- (if truthy adapter_ram then fmt_bytes_py adapter_ram else ret (lit "N/A")) ;;
  refresh <- py_get gpu_data (lit "CurrentRefreshRate") (PStr (lit "N/A")) ;;
  status <- py_get gpu_data (lit "Status") (PStr (lit "N/A")) ;;
  let rows :=
    [ [lit "Name"; py_str w name];
      [lit "Video Processor"; py_str w video_processor];
      [lit "Driver Version"; py_str w driver_version];
      [lit "Adapter RAM"; ram];
      [lit "Refresh Rate"; py_str w refresh ++ lit " Hz"];
      [lit "Status"; py_str w status] ] in
  ret (make_sub (lit "GPU: " ++ py_str w name) (make_kv_table rows)).

(** Windows fallback. *)
Definition gpu_windows (w : World) (st : gpu_state) : M gpu_state :=
  if str_eqb (platform_system w) (lit "Windows") && negb (snd st) then
    output <- run_cmd w video_controller_cmd ;;
    match nonempty_output output with
    | Some output =>
        try_except
          (data <- lift (json_loads w output) ;;
           parts <- for_each (as_list data) (fst st)
             (fun parts gpu_data =>
                section <- video_controller_section w gpu_data ;; ret (parts ++ [section])) ;;
           ret (parts, true))
          [JSONDecodeError]
          (ret st)
    | None => ret st
    end
  else ret st.

(** macOS fallback. *)
Definition gpu_darwin (w : World) (st : gpu_state) : M gpu_state :=
  if str_eqb (platform_system w) (lit "Darwin") && negb (snd st) then
    output <- run_cmd w [lit "system_profiler"; lit "SPDisplaysDataType"] ;;
    match nonempty_output output with
    | Some output =>
        ret (fst st ++ [make_sub (lit "GPU (system_profiler)") (pre output)], true)
    | None => ret st
    end
  else ret st.

Definition gpu_note : str :=
  note (lit "No GPU information available (install GPUtil for NVIDIA, or ensure drivers are installed)").

Definition collect_gpu_info (w : World) : M str :=
  st <- gpu_gputil w ([], false) ;;
  st <- gpu_nvidia_smi w st ;;
  st <- gpu_rocm_smi w st ;;
  st <- gpu_lspci w st ;;
  st <- gpu_windows w st ;;
  st <- gpu_darwin w st ;;
  let parts := if snd st then fst st else fst st ++ [gpu_note] in
  ret (join parts).

(** *** Disks *)

(** [sorted(d.items())] for a dict with string keys: by key. *)
Fixpoint insert_by_key {V} (kv : str * V) (l : list (str * V)) : list (str * V) :=
  match l with
  | [] => [kv]
  | kv' :: l' =>
      if str_ltb (fst kv) (fst kv') then kv :: l else kv' :: insert_by_key kv l'
  end.

Definition sorted_items {V} (d : list (str * V)) : list (str * V) :=
  fold_right insert_by_key [] d.

Definition iface_header_open (name : str) : str :=
  markup "<div class='iface-block'>"
  ++ markup "<div class='iface-header'>"
  ++ markup "<span class='iface-name'>" ++ esc name ++ lit "</span>".

Definition partition_block (part : sdiskpart) (usage : sdiskusage) : str :=
  let used_pct := du_percent usage in
  let color := level_color (60 # 1) (85 # 1) used_pct in
  let rows :=
    [ [lit "Total"; fmt_bytes (inject_Z (du_total usage))];
      [lit "Used"; fmt_bytes (inject_Z (du_used usage))];
      [lit "Free"; fmt_bytes (inject_Z (du_free usage))];
      [lit "Filesystem"; str_or (fstype part) (lit "N/A")];
      [lit "Mount Point"; mountpoint part];
      [lit "Mount Options"; str_or (opts part) (lit "N/A")] ] in
  iface_header_open (device part)
  ++ markup "<span class='status-badge status-up'>" ++ esc (fstype part) ++ lit "</span>"
  ++ markup "<span class='iface-meta'>Mount: " ++ esc (mountpoint part)
  ++ lit " · Opts: " ++ esc (opts part) ++ lit "</span>"
  ++ lit "</div>"
  ++ markup "<div style='padding:0.8rem;'>"
  ++ metric_row (lit "Usage (" ++ fmt_bytes (inject_Z (du_used usage)) ++ lit " / "
                 ++ fmt_bytes (inject_Z (du_total usage)) ++ lit ")")
                (progress_bar used_pct color)
  ++ make_kv_table rows
  ++ lit "</div></div>".

Definition partition_no_access (part : sdiskpart) : str :=
  iface_header_open (device part)
  ++ markup "<span class='status-badge status-down'>NO ACCESS</span>"
  ++ markup "<span class='iface-meta'>Mount: " ++ esc (mountpoint part) ++ lit "</span>"
  ++ lit "</div></div>".

(** Partitions and usage. *)
Definition disk_partitions_part (ps : Psutil) (parts : list str) : M (list str) :=
  match disk_partitions ps with
  | [] => ret parts
  | partitions =>
      disk_html <- for_each partitions []
        (fun disk_html part =>
           try_except
             (usage <- lift (disk_usage ps (mountpoint part)) ;;
              ret (disk_html ++ partition_block part usage))
             [PermissionError; OSError]
             (ret (disk_html ++ partition_no_access part))) ;;
      ret (parts ++ [make_sub (lit "Partitions &amp; Usage") disk_html])
  end.

Definition disk_io_row (item : str * sdiskio) : list str :=
  let '(disk_name, counters) := item in
  [ disk_name;
    str_of_Z (read_count counters);
    str_of_Z (write_count counters);
    fmt_bytes (inject_Z (read_bytes counters));
    fmt_bytes (inject_Z (write_bytes counters));
    str_of_Z (read_time counters) ++ lit " ms";
    str_of_Z (write_time counters) ++ lit " ms" ].

(** Disk I/O counters. *)
Definition disk_io_part (ps : Psutil) (parts : list str) : M (list str) :=
  try_except
    (disk_io <- lift (disk_io_counters ps) ;;
     match disk_io with
     | Some (item :: items) =>
         let io_rows := map disk_io_row (sorted_items (item :: items)) in
         ret (parts ++ [make_sub (lit "I/O Counters")
                          (make_table io_rows
                             (Some [lit "Disk"; lit "Reads"; lit "Writes"; lit "Read Bytes";
                                    lit "Written Bytes"; lit "Read Time"; lit "Write Time"]))])
     | _ => ret parts
     end)
    [Exception]
    (ret parts).

(** The physical-disk chain works on the pair [(phys_html, phys_found)]. *)
Definition phys_state : Type := (str * bool)%type.

Definition lsblk_cmd : list str :=
  [ lit "lsblk"; lit "-o"; lit "NAME,SIZE,TYPE,ROTA,MODEL,SERIAL,TRAN,REV,VENDOR";
    lit "--nodeps"; lit "--json" ].

Definition lsblk_row (w : World) (phys_rows : list (list str)) (dev : pyval)
  : M (list (list str)) :=
  dev_type <- py_get dev (lit "type") (PStr []) ;;
  if negb (py_eq_str dev_type (lit "disk")) then ret phys_rows
  else
    rota <- py_get dev (lit "rota") PNone ;;
    let rotational := if truthy rota then lit "HDD" else lit "SSD" in
    name <- py_get dev (lit "name") (PStr (lit "N/A")) ;;
    size <- py_get dev (lit "size") (PStr (lit "N/A")) ;;
    vendor <- py_get dev (lit "vendor") PNone ;;
    vendor <- py_strip (py_or vendor (PStr (lit "N/A"))) ;;
    model <- py_get dev (lit "model") PNone ;;
    model <- py_strip (py_or model (PStr (lit "N/A"))) ;;
    serial <- py_get dev (lit "serial") PNone ;;
    serial <- py_strip (py_or serial (PStr (lit "N/A"))) ;;
    tran <- py_get dev (lit "tran") PNone ;;
    tran <- py_upper w (py_or tran (PStr (lit "N/A"))) ;;
    ret (phys_rows ++ [[py_str w name; py_str w size; rotational; vendor; model; serial; tran]]).

(** lsblk, for an overview of the block devices. *)
Definition disk_lsblk (w : World) (st : phys_state) : M phys_state :=
  output <- run_cmd w lsblk_cmd ;;
  match nonempty_output output with
  | Some output =>
      try_except
        (data <- lift (json_loads w output) ;;
         devices <- py_get data (lit "blockdevices") (PList []) ;;
         if truthy devices then
           devs <- py_iter devices ;;
           phys_rows <- for_each devs [] (lsblk_row w) ;;
           match phys_rows with
           | [] => ret st
           | _ => ret (make_table phys_rows
                         (Some [lit "Device"; lit "Size"; lit "Type"; lit "Vendor";
                                lit "Model"; lit "Serial"; lit "Transport"]),
                       true)
           end
         else ret st)
        [JSONDecodeError]
        (ret st)
  | None => ret st
  end.

(** The SMART dump of one mounted partition's device, appended to
    [smart_html]. *)
Definition smart_block (w : World) (smart_html : str) (part : sdiskpart) : M str :=
  let dev := device part in
  let base_dev :=
    if str_eqb (platform_system w) (lit "Linux") then re_sub_partnum dev else dev in
  output <- run_cmd w [lit "sudo"; lit "smartctl"; lit "-i"; lit "-H"; lit "-A"; base_dev] ;;
  output <-
    match nonempty_output output with
    | None => run_cmd w [lit "smartctl"; lit "-i"; lit "-H"; lit "-A"; base_dev]
    | Some _ => ret output
    end ;;
  match nonempty_output output with
  | Some output =>
      ret (smart_html
           ++ markup "<details class='smart-details'><summary>" ++ esc base_dev ++ lit "</summary>"
           ++ lit "<pre>" ++ esc output ++ lit "</pre></details>")
  | None => ret smart_html
  end.

(** smartctl, for SMART data. *)
Definition disk_smart (w : World) (ps : Psutil) (st : phys_state) : M phys_state :=
  if which w (lit "smartctl") then
    smart_html <- for_each (disk_partitions ps) [] (smart_block w) ;;
    match smart_html with
    | [] => ret st
    | _ => ret (fst st ++ smart_html, true)
    end
  else ret st.

Definition disk_drive_cmd : list str :=
  [ lit "powershell"; lit "-Command";
    lit "Get-CimInstance Win32_DiskDrive | "
    ++ lit "Select-Object DeviceID,Model,Size,MediaType,InterfaceType,"
    ++ lit "SerialNumber,FirmwareRevision,Partitions,Status | ConvertTo-Json" ].

Definition disk_drive_row (w : World) (disk : pyval) : M (list str) :=
  has_size <- py_get disk (lit "Size") PNone ;;
  size <-
    (if truthy has_size
     then v <- py_get disk (lit "Size") (PInt 0) ;; fmt_bytes_py v
     else ret (lit "N/A")) ;;
  device_id <- py_get disk (lit "DeviceID") (PStr (lit "N/A")) ;;
  model <- py_get disk (lit "Model") PNone ;;
  model <- py_strip (py_or model (PStr (lit "N/A"))) ;;
  media_type <- py_get disk (lit "MediaType") (PStr (lit "N/A")) ;;
  interface_type <- py_get disk (lit "InterfaceType") (PStr (lit "N/A")) ;;
  serial <- py_get disk (lit "SerialNumber") PNone ;;
  serial <- py_strip (py_or serial (PStr (lit "N/A"))) ;;
  partitions <- py_get disk (lit "Partitions") (PStr (lit "N/A")) ;;
  status <- py_get disk (lit "Status") (PStr (lit "N/A")) ;;
  ret [ py_str w device_id; model; size; py_str w media_type; py_str w interface_type;
        serial; py_str w partitions; py_str w status ].

Definition disk_windows (w : World) (st : phys_state) : M phys_state :=
  output <- run_cmd w disk_drive_cmd ;;
  match nonempty_output output with
  | Some output =>
      try_except
        (data <- lift (json_loads w output) ;;
         phys_rows <- for_each (as_list data) []
           (fun phys_rows disk => row <- disk_drive_row w disk ;; ret (phys_rows ++ [row])) ;;
         match phys_rows with
         | [] => ret st
         | _ => ret (make_table phys_rows
                       (Some [lit "Device"; lit "Model"; lit "Size"; lit "Media Type";
                              lit "Interface"; lit "Serial"; lit "Partitions"; lit "Status"]),
                     true)
         end)
        [JSONDecodeError]
        (ret st)
  | None => ret st
  end.

Definition disk_darwin (w : World) (st : phys_state) : M phys_state :=
  output <- run_cmd w [lit "system_profiler"; lit "SPStorageDataType"] ;;
  match nonempty_output output with
  | Some output => ret (pre output, true)
  | None => ret st
  end.

Definition disk_physical_note : str :=
  note (lit "Physical disk details not available (install smartmontools on Linux, or run as admin on Windows)").

(** Physical disk details (platform-specific). *)
Definition disk_physical (w : World) (ps : Psutil) : M str :=
  st <-
    (if str_eqb (platform_system w) (lit "Linux") then
       st <- disk_lsblk w ([], false) ;; disk_smart w ps st
     else if str_eqb (platform_system w) (lit "Windows") then disk_windows w ([], false)
     else if str_eqb (platform_system w) (lit "Darwin") then disk_darwin w ([], false)
     else ret ([], false)) ;;
  ret (if snd st
       then make_sub (lit "Physical Disks") (fst st)
       else make_sub (lit "Physical Disks") disk_physical_note).

Definition disk_psutil_note : str :=
  note (lit "psutil not installed — install for disk info").

Definition collect_disk_info (w : World) : M str :=
  match psutil w with
  | None => ret disk_psutil_note
  | Some ps =>
      parts <- disk_partitions_part ps [] ;;
      parts <- disk_io_part ps parts ;;
      physical <- disk_physical w ps ;;
      ret (join (parts ++ [physical]))
  end.

(** *** Network *)

(** The host rows: each lookup that raises is left out. *)
Definition network_host_rows (w : World) : M (list (list str)) :=
  let rows := [[lit "Hostname"; gethostname w]] in
  rows <- try_except
            (fqdn <- lift (getfqdn w) ;; ret (rows ++ [[lit "FQDN"; fqdn]]))
            [Exception] (ret rows) ;;
  try_except
    (ip <- lift (gethostbyname w) ;; ret (rows ++ [[lit "Default IP"; ip]]))
    [Exception] (ret rows).

Definition duplex_map : list (Z * str) :=
  [ (0, lit "N/A"); (1, lit "Half"); (2, lit "Full") ]%Z.

Definition iface_block (stats : list (str * snicstats)) (item : str * list snicaddr) : str :=
  let '(iface, addr_list) := item in
  let iface_stat := assoc iface stats in
  let status :=
    match iface_stat with
    | Some st => if isup st then lit "UP" else lit "DOWN"
    | None => lit "DOWN"
    end in
  let speed :=
    match iface_stat with
    | Some st => if (speed st =? 0)%Z then lit "N/A" else str_of_Z (speed st) ++ lit " Mbps"
    | None => lit "N/A"
    end in
  let mtu :=
    match iface_stat with
    | Some st => str_of_Z (mtu st)
    | None => lit "N/A"
    end in
  let duplex :=
    match iface_stat with
    | Some st => int_dict_get duplex_map (duplex st) (lit "N/A")
    | None => lit "N/A"
    end in
  let status_class := if str_eqb status (lit "UP") then lit "status-up" else lit "status-down" in
  let addr_rows :=
    map (fun addr =>
           [ remove_all (lit "AddressFamily.") (family addr);
             opt_str_or (address addr) (lit "N/A");
             opt_str_or (netmask addr) (lit "N/A");
             opt_str_or (broadcast addr) (lit "N/A") ])
        addr_list in
  markup "<div class='iface-block'>"
  ++ markup "<div class='iface-header'><span class='iface-name'>" ++ esc iface ++ lit "</span>"
  ++ markup "<span class='status-badge " ++ status_class ++ markup "'>" ++ status ++ lit "</span>"
  ++ markup "<span class='iface-meta'>Speed: " ++ esc speed ++ lit " · MTU: " ++ esc mtu
  ++ lit " · Duplex: " ++ esc duplex ++ lit "</span></div>"
  ++ make_table addr_rows (Some [lit "Family"; lit "Address"; lit "Netmask"; lit "Broadcast"])
  ++ lit "</div>".

Definition network_interfaces_html (ps : Psutil) : str :=
  fold_left (fun iface_html item => iface_html ++ iface_block (net_if_stats ps) item)
            (net_if_addrs ps) [].

Definition net_io_row (item : str * snetio) : list str :=
  let '(iface, c) := item in
  [ iface;
    fmt_bytes (inject_Z (bytes_sent c));
    fmt_bytes (inject_Z (bytes_recv c));
    str_of_Z (packets_sent c);
    str_of_Z (packets_recv c);
    str_of_Z (errin c + errout c);
    str_of_Z (dropin c + dropout c) ].

Definition network_io_html (ps : Psutil) : str :=
  make_table (map net_io_row (net_io_counters ps))
    (Some [lit "Interface"; lit "Sent"; lit "Received";
           lit "Pkts Sent"; lit "Pkts Recv"; lit "Errors"; lit "Drops"]).

(** [status_counts[status] = status_counts.get(status, 0) + 1], for every
    connection. *)
Definition count_statuses (connections : list str) : list (str * Z) :=
  fold_left
    (fun status_counts status =>
       dict_set status (dict_get status_counts status 0 + 1)%Z status_counts)
    connections [].

Definition access_denied_note : str :=
  note (lit "Access denied — run as admin/root for connection details").

(** Connections summary. *)
Definition network_connections_part (ps : Psutil) (parts : list str) : M (list str) :=
  try_except
    (connections <- lift (net_connections ps) ;;
     match count_statuses connections with
     | [] => ret parts
     | status_counts =>
         let conn_rows := map (fun '(s, n) => [s; str_of_Z n]) (sorted_items status_counts) in
         ret (parts ++ [make_sub (lit "Active Connections")
                          (make_table conn_rows (Some [lit "Status"; lit "Count"]))])
     end)
    [AccessDenied]
    (ret (parts ++ [make_sub (lit "Active Connections") access_denied_note])).

Definition network_psutil_note : str :=
  note (lit "psutil not installed — install for detailed network info").

Definition collect_network_info (w : World) : M str :=
  rows <- network_host_rows w ;;
  let parts := [make_sub (lit "Host") (make_kv_table rows)] in
  match psutil w with
  | None => ret (join (parts ++ [network_psutil_note]))
  | Some ps =>
      let parts := parts ++ [make_sub (lit "Interfaces") (network_interfaces_html ps)] in
      let parts := parts ++ [make_sub (lit "I/O Statistics") (network_io_html ps)] in
      parts <- network_connections_part ps parts ;;
      ret (join parts)
  end.

(* ================================================================== *)
(** ** The report *)

(** What [main] has computed when it starts writing the file. *)
Record Report : Type := {
  hostname : str;
  timestamp : str;
  os_name : str;
  missing : list str;
  missing_banner : str;
  content : str;
  html_output : str;
  filename : str
}.

Section Template.

(** The text of the template's [<style>] element (lines 746 to 942 of the
    source), fixed text in which no field is substituted. *)
Variable style_sheet : str.

(** [HTML_TEMPLATE.format(hostname=..., timestamp=..., os_name=...,
    missing_banner=..., content=...)] *)
Definition HTML_TEMPLATE (hostname timestamp os_name missing_banner content : str) : str :=
  lit "<!DOCTYPE html>" ++ nl
  ++ markup "<html lang='en'>" ++ nl
  ++ lit "<head>" ++ nl
  ++ markup "<meta charset='UTF-8'>" ++ nl
  ++ markup "<meta name='viewport' content='width=device-width, initial-scale=1.0'>" ++ nl
  ++ lit "<title>Hardware Report &mdash; " ++ hostname ++ lit "</title>" ++ nl
  ++ style_sheet ++ nl
  ++ lit "</head>" ++ nl
  ++ lit "<body>" ++ nl
  ++ markup "<div class='container'>" ++ nl
  ++ markup "  <div class='report-header'>" ++ nl
  ++ lit "    <h1>System <span>Hardware</span> Report</h1>" ++ nl
  ++ markup "    <div class='report-meta'>" ++ nl
  ++ lit "      <span>" ++ hostname ++ lit "</span>" ++ nl
  ++ lit "      <span>" ++ timestamp ++ lit "</span>" ++ nl
  ++ lit "      <span>" ++ os_name ++ lit "</span>" ++ nl
  ++ lit "    </div>" ++ nl
  ++ lit "  </div>" ++ nl
  ++ nl
  ++ lit "  " ++ missing_banner ++ nl
  ++ nl
  ++ markup "  <nav class='nav'>" ++ nl
  ++ markup "    <a href='#system'>System</a>" ++ nl
  ++ markup "    <a href='#cpu'>CPU</a>" ++ nl
  ++ markup "    <a href='#memory'>Memory</a>" ++ nl
  ++ markup "    <a href='#gpu'>GPU</a>" ++ nl
  ++ markup "    <a href='#disks'>Disks</a>" ++ nl
  ++ markup "    <a href='#network'>Network</a>" ++ nl
  ++ lit "  </nav>" ++ nl
  ++ nl
  ++ lit "  " ++ content ++ nl
  ++ nl
  ++ markup "  <div class='footer'>" ++ nl
  ++ lit "    Generated by hardware_info.py &middot; " ++ timestamp ++ nl
  ++ lit "  </div>" ++ nl
  ++ lit "</div>" ++ nl
  ++ lit "</body>" ++ nl
  ++ lit "</html>" ++ nl.

(** The optional packages that could not be imported. *)
Definition missing_packages (w : World) : list str :=
  let missing := [] in
  let missing := match psutil w with None => missing ++ [lit "psutil"] | Some _ => missing end in
  let missing := match cpuinfo w with None => missing ++ [lit "py-cpuinfo"] | Some _ => missing end in
  match GPUtil w with None => missing ++ [lit "GPUtil"] | Some _ => missing end.

Definition make_missing_banner (missing : list str) : str :=
  match missing with
  | [] => []
  | _ =>
      let pkgs := join_with (lit ", ") (map (fun p => lit "<code>" ++ p ++ lit "</code>") missing) in
      let install_cmd := join_with (lit " ") missing in
      markup "<div class='missing-banner'>" ++ [9888%N]
      ++ lit " Optional packages not installed: " ++ pkgs ++ lit ". "
      ++ lit "Install with: <code>pip install " ++ install_cmd ++ lit "</code></div>"
  end.

(** Collect all sections: the six cards, in the order of the source. *)
Definition collect_all (w : World) : M str :=
  summary <- collect_system_summary w ;;
  let content := make_card (lit "System Overview") [128421; 65039]%N summary (lit "system") in
  cpu <- collect_cpu_info w ;;
  let content := content ++ make_card (lit "CPU") [9889%N] cpu (lit "cpu") in
  memory <- collect_memory_info w ;;
  let content := content ++ make_card (lit "Memory") [129504%N] memory (lit "memory") in
  gpu <- collect_gpu_info w ;;
  let content := content ++ make_card (lit "GPU") [127918%N] gpu (lit "gpu") in
  disks <- collect_disk_info w ;;
  let content := content ++ make_card (lit "Disks") [128190%N] disks (lit "disks") in
  network <- collect_network_info w ;;
  let content := content ++ make_card (lit "Network") [127760%N] network (lit "network") in
  ret content.

(** [main], from the parsed arguments to the text that is written to the
    file; [output] is the value of [--output]. *)
Definition main (w : World) (output : str) : M Report :=
  let timestamp := now w in
  let hostname := gethostname w in
  let os_name := system (uname w) ++ lit " " ++ release (uname w) in
  let missing := missing_packages w in
  let missing_banner := make_missing_banner missing in
  content <- collect_all w ;;
  let html_output :=
    HTML_TEMPLATE (esc hostname) (esc timestamp) (esc os_name) missing_banner content in
  ret {| hostname := hostname;
         timestamp := timestamp;
         os_name := os_name;
         missing := missing;
         missing_banner := missing_banner;
         content := content;
         html_output := html_output;
         filename := output ++ lit ".html" |}.

End Template.

(* ================================================================== *)
(** ** Notions of the specification *)

(** A tool invocation the specification calls unavailable: the tool exits
    with a code other than 0, is not found, or times out. *)
Definition tool_unavailable (o : outcome CompletedProcess) : bool :=
  match o with
  | Returns p => negb (returncode p =? 0)%Z
  | Raises FileNotFoundError => true
  | Raises TimeoutExpired => true
  | Raises _ => false
  end.

(** A tool invocation that exits with code 0 and prints nothing but
    whitespace. *)
Definition blank_success (o : outcome CompletedProcess) : bool :=
  match o with
  | Returns p => (returncode p =? 0)%Z && forallb is_space (stdout p)
  | Raises _ => false
  end.

(** The world [w] with another behaviour of the external tools. *)
Definition with_run (w : World) (r : list str -> Z -> outcome CompletedProcess) : World :=
  {| psutil := psutil w; cpuinfo := cpuinfo w; GPUtil := GPUtil w;
     uname := uname w; processor := processor w; python_version := python_version w;
     gethostname := gethostname w; getfqdn := getfqdn w; gethostbyname := gethostbyname w;
     now := now w; which := which w; run := r;
     json_loads := json_loads w; py_repr := py_repr w; str_upper := str_upper w |}.

(** The world [w] at another time of day. *)
Definition with_now (w : World) (t : str) : World :=
  {| psutil := psutil w; cpuinfo := cpuinfo w; GPUtil := GPUtil w;
     uname := uname w; processor := processor w; python_version := python_version w;
     gethostname := gethostname w; getfqdn := getfqdn w; gethostbyname := gethostbyname w;
     now := t; which := which w; run := run w;
     json_loads := json_loads w; py_repr := py_repr w; str_upper := str_upper w |}.

(** A world in which nothing optional is installed and no tool is found. *)
Definition bare_world (sys : str) : World :=
  {| psutil := None; cpuinfo := None; GPUtil := None;
     uname := {| system := sys; node := lit "host"; release := lit "1.0";
                 version := lit "#1"; machine := lit "x86_64" |};
     processor := []; python_version := lit "3.11.2";
     gethostname := lit "host"; getfqdn := Returns (lit "host.example");
     gethostbyname := Raises OSError;
     now := lit "2024-01-01 00:00:00";
     which := fun _ => false;
     run := fun _ _ => Raises FileNotFoundError;
     json_loads := fun _ => Raises JSONDecodeError;
     py_repr := fun _ => lit "[...]";
     str_upper := fun s => s |}.

(** A tool behaviour that answers every command with one outcome. *)
Definition always (o : outcome CompletedProcess) : list str -> Z -> outcome CompletedProcess :=
  fun _ _ => o.

Definition exited (code : Z) (out : str) : outcome CompletedProcess :=
  Returns {| returncode := code; stdout := out |}.

(** What [html.escape] makes of one character. *)
Definition escape_char (c : char) : str :=
  if (c =? 38)%N then lit "&amp;"
  else if (c =? 60)%N then lit "&lt;"
  else if (c =? 62)%N then lit "&gt;"
  else if (c =? 34)%N then lit "&quot;"
  else if (c =? 39)%N then lit "&#x27;"
  else [c].

(** The characters that open or close markup: the angle brackets and the
    two quotes. *)
Definition is_markup_char (c : char) : bool :=
  ((c =? 60) || (c =? 62) || (c =? 34) || (c =? 39))%N.

(** The tags of a document as a tokenizer delimits them: the text between
    each [<] and the next [>].  [cur] is the tag being read, in reverse, or
    [None] outside a tag. *)
Fixpoint tags_aux (cur : option str) (s : str) : list str :=
  match s with
  | [] => []
  | c :: s' =>
      match cur with
      | None => if (c =? 60)%N then tags_aux (Some []) s' else tags_aux None s'
      | Some t => if (c =? 62)%N then rev t :: tags_aux None s' else tags_aux (Some (c :: t)) s'
      end
  end.

Definition tags (s : str) : list str := tags_aux None s.

(** Where the tokenizer stands after [s]. *)
Fixpoint tag_state (cur : option str) (s : str) : option str :=
  match s with
  | [] => cur
  | c :: s' =>
      match cur with
      | None => if (c =? 60)%N then tag_state (Some []) s' else tag_state None s'
      | Some t => if (c =? 62)%N then tag_state None s' else tag_state (Some (c :: t)) s'
      end
  end.


(** Two pieces of a document that carry the same tags and leave the
    tokenizer outside a tag. *)
Definition same_tags (a b : str) : Prop :=
  tags a = tags b /\ tag_state None a = None /\ tag_state None b = None.


Definition kv_tr_html (row : list str) : str :=
  markup "<tr><td class='kv-key'>"
  ++ match row with k :: _ => esc k | _ => [] end
  ++ markup "</td><td class='kv-val'>"
  ++ match row with _ :: v :: _ => esc v | _ => [] end
  ++ lit "</td></tr>" ++ nl.

(** A computation that probes nothing. *)
Definition silent {A} (m : M A) : Prop := trace m = [].

(** A computation that makes the probe [e] or no probe at all. *)
Definition optional_probe {A} (m : M A) (e : event) : Prop :=
  trace m = [] \/ trace m = [e].

(** The tool behaviour [r'] differs from the one of [w] only on commands
    that, in [w], exit with code 0 and print nothing but whitespace: in
    [r'] such a command may be unavailable instead. *)
Definition blank_made_unavailable (w : World)
    (r' : list str -> Z -> outcome CompletedProcess) : Prop :=
  forall cmd,
    r' cmd 10%Z = run w cmd 10%Z
    \/ (blank_success (run w cmd 10%Z) = true /\ tool_unavailable (r' cmd 10%Z) = true).

(** The report model without its time stamp and host identity: the
    snapshots of the six domains, in order, and the missing packages with
    their banner. *)
Definition report_model (r : Report) : str * list str * str :=
  (content r, missing r, missing_banner r).

(** An outcome that is a value or an ordinary exception (not a
    [KeyboardInterrupt], which no handler of the program catches). *)
Definition ordinary {A} (o : outcome A) : Prop :=
  match o with
  | Returns _ => True
  | Raises e => isinstance e Exception = true
  end.

(** Every adapter is unavailable: no optional module could be imported and
    every external tool fails.  (The lookups of the host name, which are no
    adapters, may still answer or fail.) *)
Definition adapters_unavailable (w : World) : Prop :=
  psutil w = None /\ cpuinfo w = None /\ GPUtil w = None
  /\ (forall cmd, tool_unavailable (run w cmd 10%Z) = true)
  /\ ordinary (getfqdn w) /\ ordinary (gethostbyname w).

(** The six cards of the report, from the six snapshots. *)
Definition six_cards (summary cpu memory gpu disks network : str) : str :=
  make_card (lit "System Overview") [128421; 65039]%N summary (lit "system")
  ++ make_card (lit "CPU") [9889%N] cpu (lit "cpu")
  ++ make_card (lit "Memory") [129504%N] memory (lit "memory")
  ++ make_card (lit "GPU") [127918%N] gpu (lit "gpu")
  ++ make_card (lit "Disks") [128190%N] disks (lit "disks")
  ++ make_card (lit "Network") [127760%N] network (lit "network").

(** The snapshots of the five hardware domains when every adapter is
    unavailable: what is known without an adapter, and the guidance notes. *)
Definition degraded_cpu (w : World) : str :=
  join [ make_sub (lit "Specifications")
           (make_kv_table
              [ [lit "Processor"; str_or (processor w) (lit "N/A")];
                [lit "Architecture"; machine (uname w)];
                [lit "[py-cpuinfo]"; lit "Not installed — install for detailed CPU info"] ]);
         make_sub (lit "Temperature") cpu_temp_note ].

Definition degraded_memory : str :=
  join [ memory_psutil_note; make_sub (lit "Module Details") memory_modules_note ].

Definition degraded_network (rows : list (list str)) : str :=
  join [ make_sub (lit "Host") (make_kv_table rows); network_psutil_note ].

(** Items in the order of their keys: the key of the second is not below
    the key of the first. *)
Definition key_le {V} (a b : str * V) : Prop := str_ltb (fst b) (fst a) = false.

(** How many of [connections] have the status [s]. *)
Definition count_status (s : str) (connections : list str) : Z :=
  Z.of_nat (length (filter (str_eqb s) connections)).

(** The block of one mounted partition: its usage, or the NO ACCESS badge
    when the usage cannot be read. *)
Definition partition_html (ps : Psutil) (part : sdiskpart) : str :=
  match disk_usage ps (mountpoint part) with
  | Returns usage => partition_block part usage
  | Raises _ => partition_no_access part
  end.

(** Reading the usage of [part] returns or fails with an [OSError]. *)
Definition usage_readable_or_denied (ps : Psutil) (part : sdiskpart) : Prop :=
  match disk_usage ps (mountpoint part) with
  | Returns _ => True
  | Raises e => isinstance e OSError = true
  end.

(** The world [w] on a host of another name. *)
Definition with_hostname (w : World) (h : str) : World :=
  {| psutil := psutil w; cpuinfo := cpuinfo w; GPUtil := GPUtil w;
     uname := uname w; processor := processor w; python_version := python_version w;
     gethostname := h; getfqdn := getfqdn w; gethostbyname := gethostbyname w;
     now := now w; which := which w; run := run w;
     json_loads := json_loads w; py_repr := py_repr w; str_upper := str_upper w |}.



(* ================================================================== *)
(** ** Proof tools *)

(** Literals are evaluated by [vm_compute] where a proof needs their
    characters, never by [simpl]. *)
Arguments lit : simpl never.
Arguments markup : simpl never.
Arguments esc : simpl never.


(** A [psutil] that reports one core, one mounted partition per device of
    [devices], one network interface and no connection. *)
Definition sample_psutil (devices : list str) : Psutil :=
  {| boot_time := lit "2024-01-01 08:00:00";
     cpu_count_physical := Some 1%Z;
     cpu_count_logical := Some 1%Z;
     cpu_freq := None;
     cpu_percent := (25 # 1)%Q;
     cpu_percent_percpu := [(25 # 1)%Q];
     sensors_temperatures := None;
     virtual_memory := {| vm_total := 1024; vm_available := 512; vm_percent := (50 # 1)%Q;
                          vm_used := 512; vm_cached := None; vm_buffers := None |};
     swap_memory := {| swap_total := 0; swap_used := 0; swap_percent := 0%Q |};
     disk_partitions :=
       map (fun dev => {| device := dev; mountpoint := lit "/mnt" ++ dev;
                          fstype := lit "ext4"; opts := lit "rw" |}) devices;
     disk_usage := fun _ => Raises PermissionError;
     disk_io_counters := Returns None;
     net_if_addrs := [(lit "lo", [{| family := lit "AddressFamily.AF_INET";
                                     address := Some (lit "127.0.0.1");
                                     netmask := Some (lit "255.0.0.0");
                                     broadcast := None |}])];
     net_if_stats := [(lit "lo", {| isup := true; duplex := 0; speed := 0; mtu := 65536 |})];
     net_io_counters := [];
     net_connections := Returns [] |}.

(** [ps] with another outcome of [net_connections]. *)
Definition with_connections (ps : Psutil) (o : outcome (list str)) : Psutil :=
  {| boot_time := boot_time ps;
     cpu_count_physical := cpu_count_physical ps;
     cpu_count_logical := cpu_count_logical ps;
     cpu_freq := cpu_freq ps;
     cpu_percent := cpu_percent ps;
     cpu_percent_percpu := cpu_percent_percpu ps;
     sensors_temperatures := sensors_temperatures ps;
     virtual_memory := virtual_memory ps;
     swap_memory := swap_memory ps;
     disk_partitions := disk_partitions ps;
     disk_usage := disk_usage ps;
     disk_io_counters := disk_io_counters ps;
     net_if_addrs := net_if_addrs ps;
     net_if_stats := net_if_stats ps;
     net_io_counters := net_io_counters ps;
     net_connections := o |}.

(** The world [w] with [psutil] installed and behaving as [ps]. *)
Definition with_psutil (w : World) (ps : Psutil) : World :=
  {| psutil := Some ps; cpuinfo := cpuinfo w; GPUtil := GPUtil w;
     uname := uname w; processor := processor w; python_version := python_version w;
     gethostname := gethostname w; getfqdn := getfqdn w; gethostbyname := gethostbyname w;
     now := now w; which := which w; run := run w;
     json_loads := json_loads w; py_repr := py_repr w; str_upper := str_upper w |}.

(** The parts of the network snapshot that come before the connections. *)
Definition network_parts_before_connections (ps : Psutil) (rows : list (list str)) : list str :=
  [ make_sub (lit "Host") (make_kv_table rows);
    make_sub (lit "Interfaces") (network_interfaces_html ps);
    make_sub (lit "I/O Statistics") (network_io_html ps) ].

(** The section of the connection-state histogram, when there is one. *)
Definition connections_section (connections : list str) : list str :=
  match count_statuses connections with
  | [] => []
  | status_counts =>
      [ make_sub (lit "Active Connections")
          (make_table (map (fun '(s, n) => [s; str_of_Z n]) (sorted_items status_counts))
                      (Some [lit "Status"; lit "Count"])) ]
  end.

(** The notes the collectors show for data that is not available. *)
Definition unavailable_notes : list str :=
  [ cpu_temp_note; memory_modules_note; memory_psutil_note; gpu_note;
    disk_physical_note; disk_psutil_note; network_psutil_note ].

Fixpoint cmd_eqb (a b : list str) : bool :=
  match a, b with
  | [], [] => true
  | x :: a', y :: b' => str_eqb x y && cmd_eqb a' b'
  | _, _ => false
  end.

(** A tool behaviour given by a table of commands and outcomes; a command
    that is not in the table is not found. *)
Fixpoint answers (table : list (list str * outcome CompletedProcess))
  : list str -> Z -> outcome CompletedProcess :=
  fun cmd timeout =>
    match table with
    | [] => Raises FileNotFoundError
    | (c, o) :: rest => if cmd_eqb cmd c then o else answers rest cmd timeout
    end.

(** The world [w] with the tools of [names] on the path, and no other. *)
Definition with_tools (w : World) (names : list str) : World :=
  {| psutil := psutil w; cpuinfo := cpuinfo w; GPUtil := GPUtil w;
     uname := uname w; processor := processor w; python_version := python_version w;
     gethostname := gethostname w; getfqdn := getfqdn w; gethostbyname := gethostbyname w;
     now := now w; which := fun name => existsb (str_eqb name) names; run := run w;
     json_loads := json_loads w; py_repr := py_repr w; str_upper := str_upper w |}.


(** The number of places of [s] where [p] starts. *)
Fixpoint occurrences (p s : str) : nat :=
  match s with
  | [] => 0
  | _ :: s' => (if startswith p s then 1 else 0) + occurrences p s'
  end.

(** A Linux host with psutil and smartctl, and one disk, [/dev/sda], with
    two mounted partitions. *)
Definition smartctl_sda : list str :=
  [lit "sudo"; lit "smartctl"; lit "-i"; lit "-H"; lit "-A"; lit "/dev/sda"].

Definition two_partitions_world : World :=
  with_run
    (with_tools
       (with_psutil (bare_world (lit "Linux"))
                    (sample_psutil [lit "/dev/sda1"; lit "/dev/sda2"]))
       [lit "smartctl"])
    (answers [(smartctl_sda, exited 0 (lit "SMART overall-health: PASSED"))]).

(** [t] is [order] with some of its events left out. *)
Inductive subseq {A} : list A -> list A -> Prop :=
  | subseq_nil : forall order, subseq [] order
  | subseq_take : forall x t order, subseq t order -> subseq (x :: t) (x :: order)
  | subseq_skip : forall x t order, subseq t order -> subseq t (x :: order).







Definition runs_on (w : World) (sys : str) : Prop :=
  str_eqb (platform_system w) sys = true.






(** The computation ends with an exception. *)
Definition raises {A} (m : M A) : Prop := exists e, result m = Raises e.

(** The world [w] with [json.loads] behaving as [f]. *)
Definition with_json_loads (w : World) (f : str -> outcome pyval) : World :=
  {| psutil := psutil w; cpuinfo := cpuinfo w; GPUtil := GPUtil w;
     uname := uname w; processor := processor w; python_version := python_version w;
     gethostname := gethostname w; getfqdn := getfqdn w; gethostbyname := gethostbyname w;
     now := now w; which := which w; run := run w;
     json_loads := f; py_repr := py_repr w; str_upper := str_upper w |}.

(** A Linux host with psutil on which [lsblk] prints the JSON text [[]]. *)
Definition lsblk_list_world : World :=
  with_json_loads
    (with_run (with_psutil (bare_world (lit "Linux")) (sample_psutil [lit "/dev/sda1"]))
              (answers [(lsblk_cmd, exited 0 (lit "[]"))]))
    (fun _ => Returns (PList [])).

(** The library [ps] with [sensors_temperatures()] returning [readings]. *)
Definition with_sensors (ps : Psutil) (readings : list (str * list shwtemp)) : Psutil :=
  {| boot_time := boot_time ps;
     cpu_count_physical := cpu_count_physical ps;
     cpu_count_logical := cpu_count_logical ps;
     cpu_freq := cpu_freq ps;
     cpu_percent := cpu_percent ps;
     cpu_percent_percpu := cpu_percent_percpu ps;
     sensors_temperatures := Some readings;
     virtual_memory := virtual_memory ps;
     swap_memory := swap_memory ps;
     disk_partitions := disk_partitions ps;
     disk_usage := disk_usage ps;
     disk_io_counters := disk_io_counters ps;
     net_if_addrs := net_if_addrs ps;
     net_if_stats := net_if_stats ps;
     net_io_counters := net_io_counters ps;
     net_connections := net_connections ps |}.

(** A sensor that reads exactly 0 degrees, with a high threshold of 80. *)
Definition freezing_sensor : shwtemp :=
  {| temp_label := lit "Core 0"; temp_current := 0%Q;
     temp_high := Some (80 # 1)%Q; temp_critical := None |}.

Definition freezing_world : World :=
  with_psutil (bare_world (lit "Linux"))
              (with_sensors (sample_psutil []) [(lit "coretemp", [freezing_sensor])]).






(* ================================================================== *)
(** ** Basic facts: the monad, strings, [run_cmd] *)

Lemma bind_ret_l {A B} (a : A) (f : A -> M B) : bind (ret a) f = f a.
Proof. unfold bind, ret. destruct (f a). reflexivity. Qed.

Lemma result_bind_returns {A B} (m : M A) (f : A -> M B) (b : B) :
  result (bind m f) = Returns b ->
  exists a, result m = Returns a /\ result (f a) = Returns b.
Proof.
  unfold result, bind. destruct m as [[a | e] t]; simpl.
  - destruct (f a) as [r t'] eqn:E. simpl. intros ->. exists a. rewrite E. auto.
  - discriminate.
Qed.

Lemma trace_bind_returns {A B} (m : M A) (f : A -> M B) (a : A) :
  result m = Returns a -> trace (bind m f) = trace m ++ trace (f a).
Proof.
  unfold result, trace, bind. destruct m as [[a' | e] t]; simpl; [| discriminate].
  intros [= ->]. destruct (f a). reflexivity.
Qed.

Lemma trace_bind_raises {A B} (m : M A) (f : A -> M B) (e : exn) :
  result m = Raises e -> trace (bind m f) = trace m.
Proof.
  unfold result, trace, bind. destruct m as [[a' | e'] t]; simpl; [discriminate |].
  reflexivity.
Qed.

Lemma lstrip_all_space (s : str) : forallb is_space s = true -> lstrip s = [].
Proof.
  induction s as [| c s IH]; simpl; [reflexivity |].
  intros H. apply andb_true_iff in H. destruct H as [Hc Hs].
  rewrite Hc. auto.
Qed.

Lemma strip_all_space (s : str) : forallb is_space s = true -> strip s = [].
Proof.
  intros H. unfold strip, rstrip. rewrite (lstrip_all_space s H). reflexivity.
Qed.

(** [run_cmd] spawns the command once, and turns what [subprocess.run] did
    into a value or lets the exception through. *)
Lemma run_cmd_eq (w : World) (cmd : list str) :
  run_cmd w cmd =
  (match run w cmd 10%Z with
   | Returns p =>
       Returns (if (returncode p =? 0)%Z then Some (strip (stdout p)) else None)
   | Raises e =>
       if isinstance e FileNotFoundError || isinstance e TimeoutExpired || isinstance e OSError
       then Returns None else Raises e
   end, [Spawn cmd]).
Proof.
  unfold run_cmd, run_cmd_timeout, subprocess_run, probe, try_except, bind.
  destruct (run w cmd 10%Z) as [p | e].
  - destruct (returncode p =? 0)%Z; reflexivity.
  - cbn [existsb]. rewrite orb_false_r, orb_assoc.
    destruct (isinstance e FileNotFoundError || isinstance e TimeoutExpired || isinstance e OSError);
      reflexivity.
Qed.

Lemma run_cmd_unavailable (w : World) (cmd : list str) :
  tool_unavailable (run w cmd 10%Z) = true -> run_cmd w cmd = (Returns None, [Spawn cmd]).
Proof.
  rewrite run_cmd_eq. destruct (run w cmd 10%Z) as [p | e]; simpl.
  - intros H. apply negb_true_iff in H. rewrite H. reflexivity.
  - destruct e; try discriminate; reflexivity.
Qed.

Lemma run_cmd_blank (w : World) (cmd : list str) :
  blank_success (run w cmd 10%Z) = true -> run_cmd w cmd = (Returns (Some []), [Spawn cmd]).
Proof.
  rewrite run_cmd_eq. destruct (run w cmd 10%Z) as [p | e]; simpl; [| discriminate].
  intros H. apply andb_true_iff in H. destruct H as [H0 Hs].
  rewrite H0, (strip_all_space _ Hs). reflexivity.
Qed.

Lemma bind_ext {A B} (m : M A) (f g : A -> M B) :
  (forall a, f a = g a) -> bind m f = bind m g.
Proof.
  intros H. unfold bind. destruct m as [[a | e] t]; [rewrite H |]; reflexivity.
Qed.

Lemma bind_ret_r_map {A B} (m : M A) (f : A -> B) (l : list event) (a : A) :
  m = (Returns a, l) -> bind m (fun x => ret (f x)) = (Returns (f a), l).
Proof. intros ->. unfold bind, ret. rewrite app_nil_r. reflexivity. Qed.


Lemma result_bind {A B} (m : M A) (f : A -> M B) :
  result (bind m f)
  = match result m with
    | Returns a => result (f a)
    | Raises e => Raises e
    end.
Proof.
  unfold result, bind. destruct m as [[a | e] t]; simpl; [destruct (f a) |]; reflexivity.
Qed.

Lemma trace_ret {A} (a : A) : trace (ret a) = [].
Proof. reflexivity. Qed.

Lemma result_ret {A} (a : A) : result (ret a) = Returns a.
Proof. reflexivity. Qed.


Lemma subseq_refl {A} (l : list A) : subseq l l.
Proof. induction l; constructor; assumption. Qed.

Lemma subseq_app_skip {A} (pre t order : list A) : subseq t order -> subseq t (pre ++ order).
Proof. intros H. induction pre; simpl; [assumption | constructor; assumption]. Qed.

Lemma run_cmd_shape (w : World) (cmd : list str) :
  exists r, run_cmd w cmd = (r, [Spawn cmd]).
Proof. rewrite run_cmd_eq. eexists. reflexivity. Qed.




















Lemma optional_probe_silent {A} (m : M A) (e : event) : silent m -> optional_probe m e.
Proof. left. assumption. Qed.



Lemma bind_returned_eq {A B} (a : A) (f : A -> M B) : bind (Returns a, []) f = f a.
Proof. unfold bind. destruct (f a). reflexivity. Qed.

Lemma bind_returned_pair {A B} (a : A) (t : list event) (f : A -> M B) :
  bind (Returns a, t) f = (fst (f a), t ++ snd (f a)).
Proof. unfold bind. destruct (f a). reflexivity. Qed.


(* ================================================================== *)
(** ** C1: fallback chains *)

(** *** The stages of the GPU collector *)


















(** *** The chain of the CPU temperature *)







(** *** The chain of the memory modules on Linux *)






(* ================================================================== *)
(** ** C2: the progress bar *)

Lemma Qltb_true (a b : Q) : Qltb a b = true <-> (a < b)%Q.
Proof.
  unfold Qltb. rewrite negb_true_iff. split.
  - intros H. apply Qnot_le_lt. intros Hle. apply Qle_bool_iff in Hle. congruence.
  - intros H. destruct (Qle_bool b a) eqn:E; [| reflexivity].
    apply Qle_bool_iff in E. exfalso. exact (Qlt_not_le _ _ H E).
Qed.

Lemma Qltb_false (a b : Q) : Qltb a b = false <-> (b <= a)%Q.
Proof.
  unfold Qltb. rewrite negb_false_iff. apply Qle_bool_iff.
Qed.

(** Python's [max(0, min(100, percent))] is the mathematical clamp. *)
Lemma py_clamp_spec (percent : Q) :
  let c := py_max 0%Q (py_min (100 # 1)%Q percent) in
  (c == Qmax 0 (Qmin (100 # 1) percent))%Q /\ (0 <= c)%Q /\ (c <= 100 # 1)%Q.
Proof.
  cbv zeta. unfold py_min.
  destruct (Qltb percent (100 # 1)) eqn:E100.
  - apply Qltb_true in E100. unfold py_max.
    destruct (Qltb 0 percent) eqn:E0.
    + apply Qltb_true in E0. repeat split.
      * rewrite (Q.min_r (100 # 1) percent) by (apply Qlt_le_weak; exact E100).
        symmetry. apply Q.max_r. apply Qlt_le_weak; exact E0.
      * apply Qlt_le_weak; exact E0.
      * apply Qlt_le_weak; exact E100.
    + apply Qltb_false in E0. repeat split.
      * rewrite (Q.min_r (100 # 1) percent) by (apply Qlt_le_weak; exact E100).
        symmetry. apply Q.max_l. exact E0.
      * apply Qle_refl.
      * discriminate.
  - apply Qltb_false in E100. unfold py_max.
    replace (Qltb 0 (100 # 1)) with true by reflexivity. repeat split.
    + rewrite (Q.min_l (100 # 1) percent) by exact E100.
      symmetry. apply Q.max_r. discriminate.
    + discriminate.
    + apply Qle_refl.
Qed.

(** C2, as stated, fails: the clamped value is used for the width of the
    fill only.  The label of the bar shows the value as it was supplied, so
    -5 is displayed as -5.0% and 150 as 150.0%. *)
Lemma progress_bar_label_counterexample :
  contains (markup "<span class='progress-label'>-5.0%</span>")
           (progress_bar (-5 # 1)%Q accent) = true
  /\ contains (markup "<span class='progress-label'>150.0%</span>")
              (progress_bar (150 # 1)%Q accent) = true.
Proof. split; vm_compute; reflexivity. Qed.

(** C2, amended: the width of the fill is the usage value clamped to
    [0,100] and written with one decimal, while the label is the value
    itself, unclamped, with one decimal.  For -5 the width is 0.0% and the
    label -5.0%; for 150 the width is 100.0% and the label 150.0%. *)
Theorem progress_bar_clamps_width (percent : Q) (color : str) :
  (exists clamped : Q,
      (clamped == Qmax 0 (Qmin (100 # 1) percent))%Q
      /\ (0 <= clamped)%Q /\ (clamped <= 100 # 1)%Q
      /\ progress_bar percent color =
           markup "<div class='progress-bar'>"
           ++ markup "<div class='progress-fill' style='width:" ++ fmt_fixed 1 clamped
           ++ lit "%;background:" ++ color ++ markup ";'></div>"
           ++ markup "<span class='progress-label'>" ++ fmt_fixed 1 percent ++ lit "%</span>"
           ++ lit "</div>")
  /\ progress_bar (-5 # 1)%Q color =
       markup "<div class='progress-bar'>"
       ++ markup "<div class='progress-fill' style='width:" ++ lit "0.0"
       ++ lit "%;background:" ++ color ++ markup ";'></div>"
       ++ markup "<span class='progress-label'>" ++ lit "-5.0" ++ lit "%</span>"
       ++ lit "</div>"
  /\ progress_bar (150 # 1)%Q color =
       markup "<div class='progress-bar'>"
       ++ markup "<div class='progress-fill' style='width:" ++ lit "100.0"
       ++ lit "%;background:" ++ color ++ markup ";'></div>"
       ++ markup "<span class='progress-label'>" ++ lit "150.0" ++ lit "%</span>"
       ++ lit "</div>".
Proof.
  split; [| split].
  - exists (py_max 0%Q (py_min (100 # 1)%Q percent)).
    destruct (py_clamp_spec percent) as (Heq & H0 & H100).
    repeat split; assumption || reflexivity.
  - unfold progress_bar. cbv zeta.
    replace (fmt_fixed 1 (py_max 0%Q (py_min (100 # 1)%Q (-5 # 1)%Q))) with (lit "0.0")
      by (vm_compute; reflexivity).
    replace (fmt_fixed 1 (-5 # 1)%Q) with (lit "-5.0") by (vm_compute; reflexivity).
    reflexivity.
  - unfold progress_bar. cbv zeta.
    replace (fmt_fixed 1 (py_max 0%Q (py_min (100 # 1)%Q (150 # 1)%Q))) with (lit "100.0")
      by (vm_compute; reflexivity).
    replace (fmt_fixed 1 (150 # 1)%Q) with (lit "150.0") by (vm_compute; reflexivity).
    reflexivity.
Qed.

(* ================================================================== *)
(** ** C4: how [run_cmd] classifies an invocation *)

(** C4, as stated, fails: a tool that exits with code 0 and prints [ok] and a
    newline is a success, but [run_cmd] does not carry the captured output:
    it carries [ok], the output stripped. *)
Lemma run_cmd_strips_counterexample :
  let w := with_run (bare_world (lit "Linux")) (always (exited 0 (lit "ok" ++ nl))) in
  run w [lit "lspci"] 10%Z = exited 0 (lit "ok" ++ nl)
  /\ result (run_cmd w [lit "lspci"]) = Returns (Some (lit "ok"))
  /\ Some (lit "ok") <> Some (lit "ok" ++ nl).
Proof.
  cbv zeta. split; [reflexivity |]. split; [vm_compute; reflexivity |].
  vm_compute. discriminate.
Qed.

(** C4, amended: a tool that exits with a code other than 0, is not found or
    times out makes [run_cmd] return [None], and no exception reaches the
    caller; a tool that exits with code 0 makes it return the captured
    output with leading and trailing whitespace stripped.  Either way the
    tool is spawned exactly once. *)
Theorem run_cmd_classification (w : World) (cmd : list str) :
  (tool_unavailable (run w cmd 10%Z) = true ->
   run_cmd w cmd = (Returns None, [Spawn cmd]))
  /\
  (forall p, run w cmd 10%Z = Returns p -> returncode p = 0%Z ->
   run_cmd w cmd = (Returns (Some (strip (stdout p))), [Spawn cmd])).
Proof.
  split.
  - apply run_cmd_unavailable.
  - intros p Hp H0. rewrite run_cmd_eq, Hp, H0. reflexivity.
Qed.

Lemma run_cmd_classification_witness :
  (run_cmd (bare_world (lit "Linux")) [lit "sensors"] = (Returns None, [Spawn [lit "sensors"]]))
  /\
  (run_cmd (with_run (bare_world (lit "Linux")) (always (exited 0 (lit " 42 " ++ nl))))
           [lit "sensors"]
   = (Returns (Some (strip (lit " 42 " ++ nl))), [Spawn [lit "sensors"]])).
Proof.
  split.
  - apply (proj1 (run_cmd_classification (bare_world (lit "Linux")) [lit "sensors"])).
    reflexivity.
  - apply (proj2 (run_cmd_classification
                    (with_run (bare_world (lit "Linux")) (always (exited 0 (lit " 42 " ++ nl))))
                    [lit "sensors"])
                 {| returncode := 0; stdout := lit " 42 " ++ nl |});
      reflexivity.
Defined.
(* ================================================================== *)
(** ** C5: escaping *)

Lemma replace_char_app (old : char) (new a b : str) :
  replace_char old new (a ++ b) = replace_char old new a ++ replace_char old new b.
Proof. unfold replace_char. apply flat_map_app. Qed.

Lemma html_escape_app (a b : str) : html_escape (a ++ b) = html_escape a ++ html_escape b.
Proof. unfold html_escape. cbv zeta. repeat rewrite replace_char_app. reflexivity. Qed.

Lemma html_escape_char (c : char) : html_escape [c] = escape_char c.
Proof.
  unfold escape_char.
  destruct (c =? 38)%N eqn:E38; [apply N.eqb_eq in E38; subst; vm_compute; reflexivity |].
  destruct (c =? 60)%N eqn:E60; [apply N.eqb_eq in E60; subst; vm_compute; reflexivity |].
  destruct (c =? 62)%N eqn:E62; [apply N.eqb_eq in E62; subst; vm_compute; reflexivity |].
  destruct (c =? 34)%N eqn:E34; [apply N.eqb_eq in E34; subst; vm_compute; reflexivity |].
  destruct (c =? 39)%N eqn:E39; [apply N.eqb_eq in E39; subst; vm_compute; reflexivity |].
  unfold html_escape, replace_char. cbv zeta. simpl.
  rewrite E38. simpl. rewrite E60. simpl. rewrite E62. simpl. rewrite E34. simpl.
  rewrite E39. reflexivity.
Qed.

(** The five replacements of [html.escape], done one after the other, do
    not interfere: each character is replaced on its own. *)
Lemma esc_by_char (s : str) : esc s = flat_map escape_char s.
Proof.
  unfold esc. induction s as [| c s IH]; [reflexivity |].
  change (c :: s) with ([c] ++ s). rewrite html_escape_app, html_escape_char, IH.
  reflexivity.
Qed.

Lemma escape_char_no_markup (c x : char) : In x (escape_char c) -> is_markup_char x = false.
Proof.
  unfold escape_char.
  destruct (c =? 38)%N eqn:E38;
    [intros H; vm_compute in H; repeat (destruct H as [H | H]; [subst x; reflexivity |]); contradiction |].
  destruct (c =? 60)%N eqn:E60;
    [intros H; vm_compute in H; repeat (destruct H as [H | H]; [subst x; reflexivity |]); contradiction |].
  destruct (c =? 62)%N eqn:E62;
    [intros H; vm_compute in H; repeat (destruct H as [H | H]; [subst x; reflexivity |]); contradiction |].
  destruct (c =? 34)%N eqn:E34;
    [intros H; vm_compute in H; repeat (destruct H as [H | H]; [subst x; reflexivity |]); contradiction |].
  destruct (c =? 39)%N eqn:E39;
    [intros H; vm_compute in H; repeat (destruct H as [H | H]; [subst x; reflexivity |]); contradiction |].
  intros [H | []]. subst x. unfold is_markup_char. rewrite E60, E62, E34, E39. reflexivity.
Qed.

Lemma esc_no_markup (s : str) (x : char) : In x (esc s) -> is_markup_char x = false.
Proof.
  rewrite esc_by_char. intros H. apply in_flat_map in H. destruct H as (c & _ & H).
  exact (escape_char_no_markup c x H).
Qed.

(** *** The tokenizer over concatenations *)

Lemma tags_aux_app (cur : option str) (a b : str) :
  tags_aux cur (a ++ b) = tags_aux cur a ++ tags_aux (tag_state cur a) b.
Proof.
  revert cur. induction a as [| c a IH]; intros cur; [reflexivity |].
  simpl. destruct cur as [t |].
  - destruct (c =? 62)%N; simpl; rewrite IH; reflexivity.
  - destruct (c =? 60)%N; rewrite IH; reflexivity.
Qed.




Lemma text_has_no_tags (s : str) :
  (forall x, In x s -> is_markup_char x = false) ->
  tags s = [] /\ tag_state None s = None.
Proof.
  unfold tags. induction s as [| c s IH]; intros H; [auto |].
  simpl. assert (Hc : (c =? 60)%N = false).
  { specialize (H c (or_introl eq_refl)). unfold is_markup_char in H.
    repeat (apply orb_false_iff in H; destruct H as [H ?]). exact H. }
  rewrite Hc. apply IH. intros x Hx. apply H. right. exact Hx.
Qed.

(** Escaped text carries the tags of the empty text: none. *)
Lemma same_tags_esc (s : str) : same_tags (esc s) [].
Proof.
  destruct (text_has_no_tags (esc s) (esc_no_markup s)) as [Ht Hs].
  unfold same_tags. rewrite Ht, Hs. auto.
Qed.

Lemma fold_left_appends {A} (step : str -> A -> str) (piece : A -> str) (xs : list A) (h : str) :
  (forall h x, step h x = h ++ piece x) ->
  fold_left step xs h = h ++ flat_map piece xs.
Proof.
  intros Hstep. revert h. induction xs as [| x xs IH]; intros h; simpl.
  - symmetry. apply app_nil_r.
  - rewrite IH, Hstep, <- app_assoc. reflexivity.
Qed.


Lemma make_kv_table_flat (rows : list (list str)) :
  make_kv_table rows =
  (markup "<table class='kv'><tbody>" ++ nl) ++ flat_map kv_tr_html rows
  ++ lit "</tbody></table>" ++ nl.
Proof.
  unfold make_kv_table. cbv zeta.
  rewrite (fold_left_appends _ kv_tr_html).
  - repeat rewrite <- app_assoc. reflexivity.
  - intros h row. unfold kv_tr_html. cbv beta zeta. reflexivity.
Qed.












(* ================================================================== *)
(** ** C6: the SMBIOS memory-type codes *)

Unset Implicit Arguments.








Set Implicit Arguments.

(* ================================================================== *)
(** ** C7: the connection histogram without the permission to read it *)

Lemma connections_part_denied (ps : Psutil) (parts : list str) :
  net_connections ps = Raises AccessDenied ->
  network_connections_part ps parts
  = ret (parts ++ [make_sub (lit "Active Connections") access_denied_note]).
Proof.
  intros H. unfold network_connections_part, lift. rewrite H. reflexivity.
Qed.

Lemma connections_part_returned (ps : Psutil) (parts : list str) (connections : list str) :
  net_connections ps = Returns connections ->
  network_connections_part ps parts = ret (parts ++ connections_section connections).
Proof.
  intros H. unfold network_connections_part, lift, connections_section. rewrite H.
  unfold try_except, bind, ret.
  destruct (count_statuses connections); [rewrite (app_nil_r parts) |]; reflexivity.
Qed.

(** C7: when [psutil.net_connections] raises [AccessDenied], the network
    snapshot ends with an "Active Connections" section that holds the note
    asking for admin or root rights, a note that is none of the notes shown
    for unavailable data; the host, interface and I/O sections before it are
    the ones the snapshot has when the connections can be read. *)
Theorem connections_access_denied (w : World) (ps : Psutil) :
  psutil w = Some ps ->
  net_connections ps = Raises AccessDenied ->
  collect_network_info w
  = (rows <- network_host_rows w ;;
     ret (join (network_parts_before_connections ps rows
                ++ [make_sub (lit "Active Connections") access_denied_note])))
  /\ (forall connections,
         collect_network_info (with_psutil w (with_connections ps (Returns connections)))
         = (rows <- network_host_rows w ;;
            ret (join (network_parts_before_connections ps rows
                       ++ connections_section connections))))
  /\ ~ In access_denied_note unavailable_notes.
Proof.
  intros Hps Hden. split; [| split].
  - unfold collect_network_info. rewrite Hps. apply bind_ext. intros rows.
    rewrite connections_part_denied by exact Hden.
    rewrite bind_ret_l. reflexivity.
  - intros connections. unfold collect_network_info.
    change (psutil (with_psutil w (with_connections ps (Returns connections))))
      with (Some (with_connections ps (Returns connections))).
    change (network_host_rows (with_psutil w (with_connections ps (Returns connections))))
      with (network_host_rows w).
    apply bind_ext. intros rows.
    rewrite (connections_part_returned (with_connections ps (Returns connections)) _
               (connections := connections)) by reflexivity.
    rewrite bind_ret_l. reflexivity.
  - intros H. vm_compute in H.
    repeat (destruct H as [H | H]; [discriminate H |]). exact H.
Qed.

Lemma connections_access_denied_witness :
  let ps := with_connections (sample_psutil []) (Raises AccessDenied) in
  let w := with_psutil (bare_world (lit "Linux")) ps in
  collect_network_info w
  = (rows <- network_host_rows w ;;
     ret (join (network_parts_before_connections ps rows
                ++ [make_sub (lit "Active Connections") access_denied_note]))).
Proof.
  cbv zeta.
  exact (proj1 (@connections_access_denied
                  (with_psutil (bare_world (lit "Linux"))
                               (with_connections (sample_psutil []) (Raises AccessDenied)))
                  (with_connections (sample_psutil []) (Raises AccessDenied))
                  eq_refl eq_refl)).
Defined.

(* ================================================================== *)
(** ** C8: the SMART dump *)

(** C8 fails on the code: the dump has one block per mounted partition whose
    device answers, not one per base device.  With [/dev/sda1] and
    [/dev/sda2] mounted, the suffix of both is stripped to [/dev/sda],
    [smartctl] is run on [/dev/sda] twice and the report holds two blocks
    with the summary [/dev/sda]. *)
Theorem smart_dump_repeats_base_device :
  map re_sub_partnum [lit "/dev/sda1"; lit "/dev/sda2"] = [lit "/dev/sda"; lit "/dev/sda"]
  /\ trace (disk_smart two_partitions_world
                       (sample_psutil [lit "/dev/sda1"; lit "/dev/sda2"]) ([], false))
     = [Spawn smartctl_sda; Spawn smartctl_sda]
  /\ exists html,
       result (collect_disk_info two_partitions_world) = Returns html
       /\ occurrences (markup "<details class='smart-details'><summary>/dev/sda</summary>") html
          = 2%nat.
Proof.
  split; [vm_compute; reflexivity |].
  split; [vm_compute; reflexivity |].
  eexists. split; [vm_compute; reflexivity |].
  vm_compute. reflexivity.
Qed.

(* ================================================================== *)
(** ** A tool that succeeds and prints nothing *)

Section BlankOutput.

Variable w : World.
Variable r' : list str -> Z -> outcome CompletedProcess.
Hypothesis Hblank : blank_made_unavailable w r'.

(** After [run_cmd], a continuation that cannot tell the empty output from
    [None] runs the same in both worlds. *)
Lemma bind_run_cmd_blank {B} (cmd : list str) (k' k : option str -> M B) :
  (forall o, k' o = k o) ->
  k (Some []) = k None ->
  bind (run_cmd (with_run w r') cmd) k' = bind (run_cmd w cmd) k.
Proof.
  intros Hk Hnone. destruct (Hblank cmd) as [E | [Hb Hu]].
  - assert (Hrun : run_cmd (with_run w r') cmd = run_cmd w cmd).
    { rewrite !run_cmd_eq. cbn [run with_run]. rewrite E. reflexivity. }
    rewrite Hrun. apply bind_ext. exact Hk.
  - rewrite (run_cmd_blank w cmd Hb).
    rewrite (run_cmd_unavailable (with_run w r') cmd Hu).
    unfold bind. rewrite Hk, Hnone. reflexivity.
Qed.

Lemma for_each_ext {A S} (xs : list A) (acc : S) (body' body : S -> A -> M S) :
  (forall acc x, body' acc x = body acc x) ->
  for_each xs acc body' = for_each xs acc body.
Proof.
  intros H. revert acc. induction xs as [| x xs IH]; intros acc; simpl; [reflexivity |].
  rewrite H. apply bind_ext. exact IH.
Qed.

Lemma cpu_temp_sensors_blank (st : temp_state) :
  cpu_temp_sensors (with_run w r') st = cpu_temp_sensors w st.
Proof.
  unfold cpu_temp_sensors. change (platform_system (with_run w r')) with (platform_system w).
  destruct (negb (snd st) && str_eqb (platform_system w) (lit "Linux")); [| reflexivity].
  apply bind_run_cmd_blank; reflexivity.
Qed.

Lemma cpu_temp_windows_blank (st : temp_state) :
  cpu_temp_windows (with_run w r') st = cpu_temp_windows w st.
Proof.
  unfold cpu_temp_windows. change (platform_system (with_run w r')) with (platform_system w).
  destruct (negb (snd st) && str_eqb (platform_system w) (lit "Windows")); [| reflexivity].
  apply bind_run_cmd_blank; reflexivity.
Qed.

Lemma cpu_temperature_blank : cpu_temperature (with_run w r') = cpu_temperature w.
Proof.
  unfold cpu_temperature.
  change (cpu_temp_psutil (with_run w r')) with (cpu_temp_psutil w).
  apply bind_ext. intros st1. rewrite cpu_temp_sensors_blank.
  apply bind_ext. intros st2. rewrite cpu_temp_windows_blank. reflexivity.
Qed.

Lemma collect_cpu_info_blank : collect_cpu_info (with_run w r') = collect_cpu_info w.
Proof.
  unfold collect_cpu_info.
  change (cpu_specification_rows (with_run w r')) with (cpu_specification_rows w).
  change (psutil (with_run w r')) with (psutil w).
  rewrite cpu_temperature_blank. reflexivity.
Qed.


Lemma memory_modules_linux_blank : memory_modules_linux (with_run w r') = memory_modules_linux w.
Proof.
  unfold memory_modules_linux.
  apply bind_run_cmd_blank; [| reflexivity].
  intros o1. destruct (nonempty_output o1); [reflexivity |].
  apply bind_run_cmd_blank; reflexivity.
Qed.

Lemma memory_modules_windows_blank :
  memory_modules_windows (with_run w r') = memory_modules_windows w.
Proof. unfold memory_modules_windows. apply bind_run_cmd_blank; reflexivity. Qed.

Lemma memory_modules_darwin_blank :
  memory_modules_darwin (with_run w r') = memory_modules_darwin w.
Proof. unfold memory_modules_darwin. apply bind_run_cmd_blank; reflexivity. Qed.

Lemma collect_memory_info_blank : collect_memory_info (with_run w r') = collect_memory_info w.
Proof.
  unfold collect_memory_info, memory_modules.
  change (psutil (with_run w r')) with (psutil w).
  change (platform_system (with_run w r')) with (platform_system w).
  rewrite memory_modules_linux_blank, memory_modules_windows_blank, memory_modules_darwin_blank.
  reflexivity.
Qed.

Lemma gpu_nvidia_smi_blank (st : gpu_state) :
  gpu_nvidia_smi (with_run w r') st = gpu_nvidia_smi w st.
Proof.
  unfold gpu_nvidia_smi. change (which (with_run w r')) with (which w).
  destruct (negb (snd st) && which w (lit "nvidia-smi")); [| reflexivity].
  apply bind_run_cmd_blank; reflexivity.
Qed.

Lemma gpu_rocm_smi_blank (st : gpu_state) :
  gpu_rocm_smi (with_run w r') st = gpu_rocm_smi w st.
Proof.
  unfold gpu_rocm_smi. change (which (with_run w r')) with (which w).
  destruct (which w (lit "rocm-smi")); [| reflexivity].
  apply bind_run_cmd_blank; reflexivity.
Qed.

Lemma gpu_lspci_blank (st : gpu_state) : gpu_lspci (with_run w r') st = gpu_lspci w st.
Proof.
  unfold gpu_lspci. change (platform_system (with_run w r')) with (platform_system w).
  destruct (str_eqb (platform_system w) (lit "Linux")); [| reflexivity].
  apply bind_run_cmd_blank; reflexivity.
Qed.

Lemma gpu_windows_blank (st : gpu_state) : gpu_windows (with_run w r') st = gpu_windows w st.
Proof.
  unfold gpu_windows. change (platform_system (with_run w r')) with (platform_system w).
  destruct (str_eqb (platform_system w) (lit "Windows") && negb (snd st)); [| reflexivity].
  apply bind_run_cmd_blank; reflexivity.
Qed.

Lemma gpu_darwin_blank (st : gpu_state) : gpu_darwin (with_run w r') st = gpu_darwin w st.
Proof.
  unfold gpu_darwin. change (platform_system (with_run w r')) with (platform_system w).
  destruct (str_eqb (platform_system w) (lit "Darwin") && negb (snd st)); [| reflexivity].
  apply bind_run_cmd_blank; reflexivity.
Qed.

Lemma collect_gpu_info_blank : collect_gpu_info (with_run w r') = collect_gpu_info w.
Proof.
  unfold collect_gpu_info.
  change (gpu_gputil (with_run w r')) with (gpu_gputil w).
  apply bind_ext. intros st1. rewrite gpu_nvidia_smi_blank.
  apply bind_ext. intros st2. rewrite gpu_rocm_smi_blank.
  apply bind_ext. intros st3. rewrite gpu_lspci_blank.
  apply bind_ext. intros st4. rewrite gpu_windows_blank.
  apply bind_ext. intros st5. rewrite gpu_darwin_blank.
  reflexivity.
Qed.

Lemma disk_lsblk_blank (st : phys_state) : disk_lsblk (with_run w r') st = disk_lsblk w st.
Proof. unfold disk_lsblk. apply bind_run_cmd_blank; reflexivity. Qed.

Lemma smart_block_blank (smart_html : str) (part : sdiskpart) :
  smart_block (with_run w r') smart_html part = smart_block w smart_html part.
Proof.
  unfold smart_block. change (platform_system (with_run w r')) with (platform_system w).
  cbv zeta.
  apply bind_run_cmd_blank; [| reflexivity].
  intros o1. destruct (nonempty_output o1); [reflexivity |].
  apply bind_run_cmd_blank; reflexivity.
Qed.

Lemma disk_smart_blank (ps : Psutil) (st : phys_state) :
  disk_smart (with_run w r') ps st = disk_smart w ps st.
Proof.
  unfold disk_smart. change (which (with_run w r')) with (which w).
  destruct (which w (lit "smartctl")); [| reflexivity].
  rewrite (for_each_ext _ _ (smart_block (with_run w r')) (smart_block w) smart_block_blank).
  reflexivity.
Qed.

Lemma disk_windows_blank (st : phys_state) : disk_windows (with_run w r') st = disk_windows w st.
Proof. unfold disk_windows. apply bind_run_cmd_blank; reflexivity. Qed.

Lemma disk_darwin_blank (st : phys_state) : disk_darwin (with_run w r') st = disk_darwin w st.
Proof. unfold disk_darwin. apply bind_run_cmd_blank; reflexivity. Qed.

Lemma disk_physical_blank (ps : Psutil) :
  disk_physical (with_run w r') ps = disk_physical w ps.
Proof.
  unfold disk_physical. change (platform_system (with_run w r')) with (platform_system w).
  rewrite disk_lsblk_blank, disk_windows_blank, disk_darwin_blank.
  destruct (str_eqb (platform_system w) (lit "Linux")); [| reflexivity].
  assert (E : bind (disk_lsblk w ([], false)) (fun st => disk_smart (with_run w r') ps st)
              = bind (disk_lsblk w ([], false)) (fun st => disk_smart w ps st)).
  { apply bind_ext. intros st. apply disk_smart_blank. }
  rewrite E. reflexivity.
Qed.

Lemma collect_disk_info_blank : collect_disk_info (with_run w r') = collect_disk_info w.
Proof.
  unfold collect_disk_info. change (psutil (with_run w r')) with (psutil w).
  destruct (psutil w) as [ps |]; [| reflexivity].
  apply bind_ext. intros parts1. apply bind_ext. intros parts2.
  rewrite disk_physical_blank. reflexivity.
Qed.

End BlankOutput.

(** X1: a command that exits with code 0 and prints nothing, or nothing but
    whitespace, makes [run_cmd] return the empty string; and no collector
    can tell that result from a failed probe: making any such command
    unavailable instead (a non-zero exit code, not found, or a timeout)
    changes neither the snapshot of any collector nor the probes it makes
    (after an empty result the next candidate is tried or the degraded
    section is shown, as after a failure). *)
Theorem blank_output_is_a_failed_probe
    (w : World) (r' : list str -> Z -> outcome CompletedProcess) :
  blank_made_unavailable w r' ->
  (forall cmd, blank_success (run w cmd 10%Z) = true ->
               run_cmd w cmd = (Returns (Some []), [Spawn cmd])
               /\ nonempty_output (Some []) = nonempty_output None)
  /\ collect_system_summary (with_run w r') = collect_system_summary w
  /\ collect_cpu_info (with_run w r') = collect_cpu_info w
  /\ collect_memory_info (with_run w r') = collect_memory_info w
  /\ collect_gpu_info (with_run w r') = collect_gpu_info w
  /\ collect_disk_info (with_run w r') = collect_disk_info w
  /\ collect_network_info (with_run w r') = collect_network_info w.
Proof.
  intros H. split.
  { intros cmd Hb. split; [apply run_cmd_blank; exact Hb | reflexivity]. }
  split; [reflexivity |].
  split; [apply collect_cpu_info_blank; exact H |].
  split; [apply collect_memory_info_blank; exact H |].
  split; [apply collect_gpu_info_blank; exact H |].
  split; [apply collect_disk_info_blank; exact H |].
  reflexivity.
Qed.

Lemma blank_output_is_a_failed_probe_witness :
  let w := with_run (bare_world (lit "Linux")) (always (exited 0 (lit "  " ++ nl))) in
  collect_gpu_info (with_run w (always (exited 1 []))) = collect_gpu_info w
  /\ collect_memory_info (with_run w (always (exited 1 []))) = collect_memory_info w.
Proof.
  cbv zeta.
  assert (H : blank_made_unavailable
                (with_run (bare_world (lit "Linux")) (always (exited 0 (lit "  " ++ nl))))
                (always (exited 1 []))).
  { intros cmd. right. split; vm_compute; reflexivity. }
  destruct (blank_output_is_a_failed_probe H) as (_ & _ & _ & Hmem & Hgpu & _).
  split; [exact Hgpu | exact Hmem].
Defined.
(* ================================================================== *)
(** ** No snapshot is empty, and the report holds the six in order *)

Lemma app_nonempty_l {A} (a b : list A) : a <> [] -> a ++ b <> [].
Proof. destruct a; [contradiction | discriminate]. Qed.

Lemma app_nonempty_r {A} (a b : list A) : b <> [] -> a ++ b <> [].
Proof. intros H E. apply app_eq_nil in E. destruct E. contradiction. Qed.

Lemma join_nonempty (parts : list str) (x : str) : In x parts -> x <> [] -> join parts <> [].
Proof.
  unfold join. induction parts as [| p parts IH]; simpl; [contradiction |].
  intros [-> | Hin] Hx.
  - apply app_nonempty_l. exact Hx.
  - apply app_nonempty_r. apply IH; assumption.
Qed.

Lemma make_sub_nonempty (title content : str) : make_sub title content <> [].
Proof. unfold make_sub. apply app_nonempty_l. vm_compute. discriminate. Qed.

Lemma note_nonempty (text : str) : note text <> [].
Proof. unfold note. apply app_nonempty_l. vm_compute. discriminate. Qed.

Lemma make_kv_table_nonempty (rows : list (list str)) : make_kv_table rows <> [].
Proof.
  rewrite make_kv_table_flat. apply app_nonempty_l. vm_compute. discriminate.
Qed.

Lemma returned_ret {A} (a b : A) : result (ret a) = Returns b -> b = a.
Proof. unfold result, ret. simpl. intros [= ->]. reflexivity. Qed.

(** *** Whenever a collector returns *)

Lemma system_summary_nonempty (w : World) (s : str) :
  result (collect_system_summary w) = Returns s -> s <> [].
Proof.
  unfold collect_system_summary. intros H. apply returned_ret in H. subst s.
  apply make_kv_table_nonempty.
Qed.

Lemma cpu_info_nonempty (w : World) (s : str) :
  result (collect_cpu_info w) = Returns s -> s <> [].
Proof.
  unfold collect_cpu_info. intros H.
  apply result_bind_returns in H. destruct H as (rows & _ & H).
  apply result_bind_returns in H. destruct H as (temp_html & _ & H).
  apply returned_ret in H. subst s.
  apply join_nonempty with (x := make_sub (lit "Temperature") temp_html).
  - apply in_or_app. right. left. reflexivity.
  - apply make_sub_nonempty.
Qed.

Lemma memory_info_nonempty (w : World) (s : str) :
  result (collect_memory_info w) = Returns s -> s <> [].
Proof.
  unfold collect_memory_info. intros H.
  apply result_bind_returns in H. destruct H as (module_html & _ & H).
  apply returned_ret in H. subst s.
  apply join_nonempty with (x := make_sub (lit "Module Details") module_html).
  - apply in_or_app. right. left. reflexivity.
  - apply make_sub_nonempty.
Qed.

Lemma disk_physical_nonempty (w : World) (ps : Psutil) (s : str) :
  result (disk_physical w ps) = Returns s -> s <> [].
Proof.
  unfold disk_physical. intros H.
  apply result_bind_returns in H. destruct H as (st & _ & H).
  apply returned_ret in H. subst s.
  destruct (snd st); apply make_sub_nonempty.
Qed.

Lemma disk_info_nonempty (w : World) (s : str) :
  result (collect_disk_info w) = Returns s -> s <> [].
Proof.
  unfold collect_disk_info. destruct (psutil w) as [ps |]; intros H.
  - apply result_bind_returns in H. destruct H as (parts1 & _ & H).
    apply result_bind_returns in H. destruct H as (parts2 & _ & H).
    apply result_bind_returns in H. destruct H as (physical & Hphys & H).
    apply returned_ret in H. subst s.
    apply join_nonempty with (x := physical).
    + apply in_or_app. right. left. reflexivity.
    + exact (@disk_physical_nonempty _ _ _ Hphys).
  - apply returned_ret in H. subst s. apply note_nonempty.
Qed.

Lemma connections_part_extends (ps : Psutil) (parts parts' : list str) :
  result (network_connections_part ps parts) = Returns parts' ->
  exists extra, parts' = parts ++ extra.
Proof.
  unfold network_connections_part, lift.
  destruct (net_connections ps) as [connections | e].
  - rewrite bind_returned_eq. cbn [try_except].
    destruct (count_statuses connections); cbn; intros [= <-].
    + exists []. symmetry. apply app_nil_r.
    + eexists. reflexivity.
  - cbn [bind try_except].
    destruct (existsb (isinstance e) [AccessDenied]); cbn; [| discriminate].
    intros [= <-]. eexists. reflexivity.
Qed.

Lemma network_info_nonempty (w : World) (s : str) :
  result (collect_network_info w) = Returns s -> s <> [].
Proof.
  unfold collect_network_info. intros H.
  apply result_bind_returns in H. destruct H as (rows & _ & H).
  destruct (psutil w) as [ps |].
  - apply result_bind_returns in H. destruct H as (parts & Hparts & H).
    apply returned_ret in H. subst s.
    apply connections_part_extends in Hparts. destruct Hparts as [extra ->].
    apply join_nonempty with (x := make_sub (lit "Host") (make_kv_table rows)).
    + apply in_or_app. left. left. reflexivity.
    + apply make_sub_nonempty.
  - apply returned_ret in H. subst s.
    apply join_nonempty with (x := make_sub (lit "Host") (make_kv_table rows)).
    + left. reflexivity.
    + apply make_sub_nonempty.
Qed.

(** *** The report holds the six snapshots, in order *)

Lemma collect_all_six_cards (w : World) (content : str) :
  result (collect_all w) = Returns content ->
  exists summary cpu memory gpu disks network,
    result (collect_system_summary w) = Returns summary
    /\ result (collect_cpu_info w) = Returns cpu
    /\ result (collect_memory_info w) = Returns memory
    /\ result (collect_gpu_info w) = Returns gpu
    /\ result (collect_disk_info w) = Returns disks
    /\ result (collect_network_info w) = Returns network
    /\ content = six_cards summary cpu memory gpu disks network.
Proof.
  unfold collect_all. intros H.
  apply result_bind_returns in H. destruct H as (summary & H1 & H).
  apply result_bind_returns in H. destruct H as (cpu & H2 & H).
  apply result_bind_returns in H. destruct H as (memory & H3 & H).
  apply result_bind_returns in H. destruct H as (gpu & H4 & H).
  apply result_bind_returns in H. destruct H as (disks & H5 & H).
  apply result_bind_returns in H. destruct H as (network & H6 & H).
  apply returned_ret in H. subst content.
  exists summary, cpu, memory, gpu, disks, network.
  repeat (split; [assumption |]).
  unfold six_cards. repeat rewrite <- app_assoc. reflexivity.
Qed.

Lemma system_summary_returns (w : World) :
  exists summary, collect_system_summary w = ret summary.
Proof. unfold collect_system_summary. eexists. reflexivity. Qed.

(** *** When every adapter is unavailable *)

Section Unavailable.

Variable w : World.
Hypothesis Hun : adapters_unavailable w.

Lemma unavailable_run_cmd (cmd : list str) : run_cmd w cmd = (Returns None, [Spawn cmd]).
Proof. apply run_cmd_unavailable. destruct Hun as (_ & _ & _ & H & _). apply H. Qed.

Lemma unavailable_probe {B} (cmd : list str) (k : option str -> M B) :
  result (bind (run_cmd w cmd) k) = result (k None).
Proof. rewrite result_bind, unavailable_run_cmd. reflexivity. Qed.

Lemma unavailable_cpu : result (collect_cpu_info w) = Returns (degraded_cpu w).
Proof.
  destruct Hun as (Hps & Hci & _).
  unfold collect_cpu_info, cpu_specification_rows, cpu_temperature, cpu_temp_psutil.
  rewrite Hps, Hci. repeat rewrite bind_ret_l.
  rewrite result_bind.
  assert (E1 : result (cpu_temp_sensors w ([], false)) = Returns ([], false)).
  { unfold cpu_temp_sensors. destruct (_ && _); [| reflexivity].
    rewrite unavailable_probe. reflexivity. }
  assert (E2 : result (cpu_temp_windows w ([], false)) = Returns ([], false)).
  { unfold cpu_temp_windows. destruct (_ && _); [| reflexivity].
    rewrite unavailable_probe. reflexivity. }
  rewrite result_bind, E1, result_bind, E2.
  unfold degraded_cpu. cbn [result ret fst snd app]. reflexivity.
Qed.

Lemma unavailable_memory : result (collect_memory_info w) = Returns degraded_memory.
Proof.
  destruct Hun as (Hps & _).
  unfold collect_memory_info, memory_modules. rewrite Hps.
  assert (E : result (if str_eqb (platform_system w) (lit "Linux") then memory_modules_linux w
                      else if str_eqb (platform_system w) (lit "Windows")
                           then memory_modules_windows w
                           else if str_eqb (platform_system w) (lit "Darwin")
                                then memory_modules_darwin w
                                else ret ([], false))
                = Returns ([], false)).
  { destruct (str_eqb (platform_system w) (lit "Linux")).
    { unfold memory_modules_linux. rewrite unavailable_probe. cbn [nonempty_output].
      rewrite unavailable_probe. reflexivity. }
    destruct (str_eqb (platform_system w) (lit "Windows")).
    { unfold memory_modules_windows. rewrite unavailable_probe. reflexivity. }
    destruct (str_eqb (platform_system w) (lit "Darwin")); [| reflexivity].
    unfold memory_modules_darwin. rewrite unavailable_probe. reflexivity. }
  rewrite result_bind, result_bind, E.
  unfold degraded_memory. cbn [result ret fst snd app]. reflexivity.
Qed.

Lemma unavailable_gpu : result (collect_gpu_info w) = Returns gpu_note.
Proof.
  destruct Hun as (_ & _ & Hgpu & _).
  unfold collect_gpu_info, gpu_gputil. rewrite Hgpu, bind_ret_l.
  assert (E2 : result (gpu_nvidia_smi w ([], false)) = Returns ([], false)).
  { unfold gpu_nvidia_smi. destruct (_ && _); [| reflexivity].
    rewrite unavailable_probe. reflexivity. }
  assert (E3 : result (gpu_rocm_smi w ([], false)) = Returns ([], false)).
  { unfold gpu_rocm_smi. destruct (which w _); [| reflexivity].
    rewrite unavailable_probe. reflexivity. }
  assert (E4 : result (gpu_lspci w ([], false)) = Returns ([], false)).
  { unfold gpu_lspci. destruct (str_eqb _ _); [| reflexivity].
    rewrite unavailable_probe. reflexivity. }
  assert (E5 : result (gpu_windows w ([], false)) = Returns ([], false)).
  { unfold gpu_windows. destruct (_ && _); [| reflexivity].
    rewrite unavailable_probe. reflexivity. }
  assert (E6 : result (gpu_darwin w ([], false)) = Returns ([], false)).
  { unfold gpu_darwin. destruct (_ && _); [| reflexivity].
    rewrite unavailable_probe. reflexivity. }
  rewrite result_bind, E2, result_bind, E3, result_bind, E4, result_bind, E5, result_bind, E6.
  cbn [result ret fst snd]. unfold join. cbn [concat app]. rewrite app_nil_r. reflexivity.
Qed.

Lemma unavailable_disk : result (collect_disk_info w) = Returns disk_psutil_note.
Proof.
  destruct Hun as (Hps & _). unfold collect_disk_info. rewrite Hps. reflexivity.
Qed.

Lemma host_lookup_returns (o : outcome str) (label : str) (rows : list (list str)) :
  ordinary o ->
  exists rows',
    try_except (x <- lift o ;; ret (rows ++ [[label; x]])) [Exception] (ret rows)
    = ret rows'.
Proof.
  unfold ordinary, lift. destruct o as [x | e]; intros H.
  - eexists. reflexivity.
  - exists rows. cbn [bind try_except existsb]. rewrite H. reflexivity.
Qed.

Lemma network_host_rows_returns :
  exists rows, network_host_rows w = ret rows.
Proof.
  destruct Hun as (_ & _ & _ & _ & Hfqdn & Hip).
  unfold network_host_rows.
  destruct (@host_lookup_returns (getfqdn w) (lit "FQDN") [[lit "Hostname"; gethostname w]] Hfqdn)
    as [rows1 E1].
  rewrite E1, bind_ret_l.
  destruct (@host_lookup_returns (gethostbyname w) (lit "Default IP") rows1 Hip) as [rows2 E2].
  exists rows2. exact E2.
Qed.

Lemma unavailable_network :
  exists rows,
    result (network_host_rows w) = Returns rows
    /\ result (collect_network_info w) = Returns (degraded_network rows).
Proof.
  destruct Hun as (Hps & _).
  destruct network_host_rows_returns as [rows E]. exists rows.
  unfold collect_network_info. rewrite E, bind_ret_l, Hps.
  unfold degraded_network. cbn [result ret fst snd app]. split; reflexivity.
Qed.

Lemma unavailable_collect_all :
  exists summary rows,
    result (collect_system_summary w) = Returns summary
    /\ result (network_host_rows w) = Returns rows
    /\ result (collect_all w)
       = Returns (six_cards summary (degraded_cpu w) degraded_memory gpu_note
                            disk_psutil_note (degraded_network rows)).
Proof.
  destruct unavailable_network as (rows & Hrows & Hnet).
  destruct (system_summary_returns w) as [summary Esum].
  exists summary, rows. split; [rewrite Esum; reflexivity |]. split; [exact Hrows |].
  unfold collect_all. rewrite Esum, bind_ret_l.
  rewrite result_bind, unavailable_cpu, result_bind, unavailable_memory,
    result_bind, unavailable_gpu, result_bind, unavailable_disk, result_bind, Hnet.
  cbn [result ret fst]. unfold six_cards. repeat rewrite <- app_assoc. reflexivity.
Qed.

End Unavailable.

(** X2: when every adapter is unavailable, each of the six collectors
    returns, and returns a snapshot that is not empty: the five hardware
    domains degrade to what is known without an adapter and to their
    guidance notes.  The System, CPU, Memory, Disk and Network snapshots are
    not empty whatever the adapters answer.  And whenever [main] assembles a
    report, its content is the six snapshots, each in its card, in the order
    System, CPU, Memory, GPU, Disks, Network. *)
Theorem snapshots_never_empty (style : str) (w : World) (output : str) :
  (adapters_unavailable w ->
   exists summary rows r,
     result (collect_system_summary w) = Returns summary /\ summary <> []
     /\ result (collect_cpu_info w) = Returns (degraded_cpu w) /\ degraded_cpu w <> []
     /\ result (collect_memory_info w) = Returns degraded_memory /\ degraded_memory <> []
     /\ result (collect_gpu_info w) = Returns gpu_note /\ gpu_note <> []
     /\ result (collect_disk_info w) = Returns disk_psutil_note /\ disk_psutil_note <> []
     /\ result (collect_network_info w) = Returns (degraded_network rows)
     /\ degraded_network rows <> []
     /\ result (main style w output) = Returns r
     /\ content r = six_cards summary (degraded_cpu w) degraded_memory gpu_note
                              disk_psutil_note (degraded_network rows))
  /\ (forall s,
        result (collect_system_summary w) = Returns s
        \/ result (collect_cpu_info w) = Returns s
        \/ result (collect_memory_info w) = Returns s
        \/ result (collect_disk_info w) = Returns s
        \/ result (collect_network_info w) = Returns s ->
        s <> [])
  /\ (forall r,
        result (main style w output) = Returns r ->
        exists summary cpu memory gpu disks network,
          result (collect_system_summary w) = Returns summary
          /\ result (collect_cpu_info w) = Returns cpu
          /\ result (collect_memory_info w) = Returns memory
          /\ result (collect_gpu_info w) = Returns gpu
          /\ result (collect_disk_info w) = Returns disks
          /\ result (collect_network_info w) = Returns network
          /\ content r = six_cards summary cpu memory gpu disks network).
Proof.
  split; [| split].
  - intros Hun.
    destruct (unavailable_collect_all Hun) as (summary & rows & Hsum & Hrows & Hall).
    destruct (unavailable_network Hun) as (rows' & Hrows' & Hnet).
    assert (rows' = rows) by congruence. subst rows'.
    pose proof (unavailable_cpu Hun) as Hcpu.
    pose proof (unavailable_memory Hun) as Hmem.
    pose proof (unavailable_gpu Hun) as Hgpu.
    pose proof (unavailable_disk Hun) as Hdisk.
    assert (Hmain : exists r, result (main style w output) = Returns r
                              /\ content r = six_cards summary (degraded_cpu w) degraded_memory
                                                       gpu_note disk_psutil_note
                                                       (degraded_network rows)).
    { unfold main. rewrite result_bind, Hall. eexists. split; reflexivity. }
    destruct Hmain as (r & Hr & Hcontent).
    exists summary, rows, r.
    split; [exact Hsum |]. split; [exact (@system_summary_nonempty _ _ Hsum) |].
    split; [exact Hcpu |]. split; [exact (@cpu_info_nonempty _ _ Hcpu) |].
    split; [exact Hmem |]. split; [exact (@memory_info_nonempty _ _ Hmem) |].
    split; [exact Hgpu |]. split; [apply note_nonempty |].
    split; [exact Hdisk |]. split; [apply note_nonempty |].
    split; [exact Hnet |]. split; [exact (@network_info_nonempty _ _ Hnet) |].
    split; [exact Hr | exact Hcontent].
  - intros s [H | [H | [H | [H | H]]]].
    + exact (@system_summary_nonempty _ _ H).
    + exact (@cpu_info_nonempty _ _ H).
    + exact (@memory_info_nonempty _ _ H).
    + exact (@disk_info_nonempty _ _ H).
    + exact (@network_info_nonempty _ _ H).
  - intros r H. unfold main in H.
    apply result_bind_returns in H. destruct H as (c & Hall & H).
    apply returned_ret in H. subst r. cbn [content].
    exact (@collect_all_six_cards _ _ Hall).
Qed.

Lemma bare_world_unavailable (sys : str) : adapters_unavailable (bare_world sys).
Proof.
  unfold adapters_unavailable. cbn [bare_world psutil cpuinfo GPUtil run getfqdn gethostbyname].
  repeat split; reflexivity.
Qed.

Lemma snapshots_never_empty_witness :
  exists summary rows r,
    result (collect_cpu_info (bare_world (lit "Linux")))
    = Returns (degraded_cpu (bare_world (lit "Linux")))
    /\ result (collect_gpu_info (bare_world (lit "Linux"))) = Returns gpu_note
    /\ result (main [] (bare_world (lit "Linux")) (lit "hardware_report")) = Returns r
    /\ content r = six_cards summary (degraded_cpu (bare_world (lit "Linux"))) degraded_memory
                             gpu_note disk_psutil_note (degraded_network rows).
Proof.
  destruct (proj1 (snapshots_never_empty [] (bare_world (lit "Linux")) (lit "hardware_report"))
                  (bare_world_unavailable (lit "Linux")))
    as (summary & rows & r & _ & _ & Hcpu & _ & _ & _ & Hgpu & _ & _ & _ & _ & _ & Hr & Hc).
  exists summary, rows, r.
  exact (conj Hcpu (conj Hgpu (conj Hr Hc))).
Defined.

(* ================================================================== *)
(** ** [run_cmd]: exceptions and whitespace *)

Unset Implicit Arguments.

(** X3: of the exceptions [subprocess.run] raises, [run_cmd] swallows the
    timeout and every [OSError] (a missing executable, a refused
    permission) and returns [None]; any other exception, such as the
    [UnicodeDecodeError] of output that cannot be decoded, reaches the
    collector.  Either way the command was spawned once. *)
Theorem run_cmd_exceptions (w : World) (cmd : list str) (e : exn) :
  run w cmd 10%Z = Raises e ->
  (isinstance e OSError = true \/ e = TimeoutExpired ->
   run_cmd w cmd = (Returns None, [Spawn cmd]))
  /\ (isinstance e OSError = false -> e <> TimeoutExpired ->
      run_cmd w cmd = (Raises e, [Spawn cmd])).
Proof.
  intros H. rewrite run_cmd_eq, H. split.
  - intros [Hos | ->].
    + rewrite Hos, orb_true_r. reflexivity.
    + reflexivity.
  - intros Hos Hto. destruct e; try discriminate Hos; try reflexivity.
    exfalso. apply Hto. reflexivity.
Qed.

Lemma run_cmd_exceptions_witness :
  run_cmd (with_run (bare_world (lit "Linux")) (always (Raises PermissionError))) [lit "lspci"]
  = (Returns None, [Spawn [lit "lspci"]])
  /\ run_cmd (with_run (bare_world (lit "Linux")) (always (Raises UnicodeDecodeError)))
             [lit "lspci"]
     = (Raises UnicodeDecodeError, [Spawn [lit "lspci"]]).
Proof.
  split.
  - apply (proj1 (run_cmd_exceptions
                    (with_run (bare_world (lit "Linux")) (always (Raises PermissionError)))
                    [lit "lspci"] PermissionError eq_refl)).
    left. reflexivity.
  - apply (proj2 (run_cmd_exceptions
                    (with_run (bare_world (lit "Linux")) (always (Raises UnicodeDecodeError)))
                    [lit "lspci"] UnicodeDecodeError eq_refl)).
    + reflexivity.
    + discriminate.
Defined.

Lemma lstrip_head (s : str) (c : char) (r : str) : lstrip s = c :: r -> is_space c = false.
Proof.
  induction s as [| x s IH]; simpl; [discriminate |].
  destruct (is_space x) eqn:E; [exact IH |].
  intros [= <- _]. exact E.
Qed.

Lemma lstrip_keeps_last (a : str) (c : char) :
  is_space c = false -> exists t, lstrip (a ++ [c]) = t ++ [c].
Proof.
  intros Hc. induction a as [| x a IH]; simpl.
  - rewrite Hc. exists []. reflexivity.
  - destruct (is_space x); [exact IH |]. exists (x :: a). reflexivity.
Qed.

Lemma strip_first (s : str) (c : char) (r : str) : strip s = c :: r -> is_space c = false.
Proof.
  unfold strip, rstrip. destruct (lstrip s) as [| c0 y] eqn:E; [discriminate |].
  pose proof (lstrip_head s c0 y E) as Hc0.
  simpl rev. destruct (lstrip_keeps_last (rev y) c0 Hc0) as [t Ht]. rewrite Ht.
  rewrite rev_app_distr. simpl. intros [= <- _]. exact Hc0.
Qed.

Lemma strip_last (s : str) (c : char) (r : str) : strip s = r ++ [c] -> is_space c = false.
Proof.
  unfold strip, rstrip. intros H.
  apply (f_equal (@rev char)) in H. rewrite rev_involutive, rev_app_distr in H. simpl in H.
  exact (lstrip_head _ _ _ H).
Qed.

(** X4: the output [run_cmd] hands to a collector is trimmed: it neither
    starts nor ends with a whitespace character (a newline included), so
    the [<pre>] blocks and the parsed lines never carry the tool's leading
    or trailing blank lines. *)
Theorem run_cmd_output_is_trimmed (w : World) (cmd : list str) (s : str) :
  result (run_cmd w cmd) = Returns (Some s) ->
  (forall c r, s = c :: r -> is_space c = false)
  /\ (forall c r, s = r ++ [c] -> is_space c = false).
Proof.
  rewrite run_cmd_eq. unfold result. simpl.
  destruct (run w cmd 10%Z) as [p | e].
  - destruct (returncode p =? 0)%Z; [| discriminate].
    intros [= <-]. split; intros c r H.
    + exact (strip_first _ _ _ H).
    + exact (strip_last _ _ _ H).
  - destruct (isinstance e FileNotFoundError || isinstance e TimeoutExpired
              || isinstance e OSError); discriminate.
Qed.

Lemma run_cmd_output_is_trimmed_witness :
  (forall c r, lit "x86" = c :: r -> is_space c = false)
  /\ (forall c r, lit "x86" = r ++ [c] -> is_space c = false).
Proof.
  exact (run_cmd_output_is_trimmed
           (with_run (bare_world (lit "Linux")) (always (exited 0 (lit "x86" ++ nl))))
           [lit "uname"] (lit "x86") eq_refl).
Defined.

(* ================================================================== *)
(** ** Strings as keys: equality, order, dictionaries *)

Lemma str_eqb_eq (a b : str) : str_eqb a b = true <-> a = b.
Proof.
  revert b. induction a as [| x a IH]; intros [| y b]; simpl; split; intros H;
    try reflexivity; try discriminate.
  - apply andb_true_iff in H. destruct H as [Hx Hab].
    apply N.eqb_eq in Hx. apply IH in Hab. subst. reflexivity.
  - injection H as -> ->. rewrite N.eqb_refl. simpl. apply IH. reflexivity.
Qed.

Lemma str_eqb_refl (a : str) : str_eqb a a = true.
Proof. apply str_eqb_eq. reflexivity. Qed.

Lemma str_eqb_neq (a b : str) : str_eqb a b = false <-> a <> b.
Proof.
  split.
  - intros H E. apply str_eqb_eq in E. congruence.
  - intros H. destruct (str_eqb a b) eqn:E; [| reflexivity].
    apply str_eqb_eq in E. contradiction.
Qed.

Lemma str_ltb_irrefl (a : str) : str_ltb a a = false.
Proof.
  induction a as [| x a IH]; simpl; [reflexivity |].
  rewrite N.ltb_irrefl, N.eqb_refl. exact IH.
Qed.

Lemma str_ltb_trans (a b c : str) :
  str_ltb a b = true -> str_ltb b c = true -> str_ltb a c = true.
Proof.
  revert b c. induction a as [| x a IH]; intros [| y b] [| z c]; simpl;
    try discriminate; try reflexivity.
  intros H1 H2.
  apply orb_true_iff in H1. apply orb_true_iff in H2. apply orb_true_iff.
  destruct H1 as [H1 | H1]; destruct H2 as [H2 | H2].
  - left. apply N.ltb_lt in H1, H2. apply N.ltb_lt. lia.
  - apply andb_true_iff in H2. destruct H2 as [E _]. apply N.eqb_eq in E. subst z.
    left. exact H1.
  - apply andb_true_iff in H1. destruct H1 as [E _]. apply N.eqb_eq in E. subst y.
    left. exact H2.
  - apply andb_true_iff in H1. destruct H1 as [E1 L1].
    apply andb_true_iff in H2. destruct H2 as [E2 L2].
    apply N.eqb_eq in E1, E2. subst y z. right. rewrite N.eqb_refl. simpl.
    exact (IH b c L1 L2).
Qed.

Lemma str_ltb_trichotomy (a b : str) :
  str_ltb a b = true \/ a = b \/ str_ltb b a = true.
Proof.
  revert b. induction a as [| x a IH]; intros [| y b]; simpl; auto.
  destruct (N.lt_trichotomy x y) as [H | [H | H]].
  - left. apply N.ltb_lt in H. rewrite H. reflexivity.
  - subst y. rewrite N.ltb_irrefl, N.eqb_refl. simpl.
    destruct (IH b) as [L | [E | L]]; auto. subst. auto.
  - right. right. apply N.ltb_lt in H. rewrite H. reflexivity.
Qed.

Lemma key_le_trans {V} (a b c : str * V) : key_le a b -> key_le b c -> key_le a c.
Proof.
  unfold key_le. intros Hab Hbc.
  destruct (str_ltb (fst c) (fst a)) eqn:Hca; [| reflexivity].
  destruct (str_ltb_trichotomy (fst a) (fst b)) as [L | [E | L]].
  - rewrite (str_ltb_trans _ _ _ Hca L) in Hbc. discriminate.
  - rewrite <- E, Hca in Hbc. discriminate.
  - rewrite L in Hab. discriminate.
Qed.

(** *** [sorted(d.items())] *)

Lemma insert_by_key_perm {V} (kv : str * V) (l : list (str * V)) :
  Permutation (insert_by_key kv l) (kv :: l).
Proof.
  induction l as [| kv' l IH]; simpl; [reflexivity |].
  destruct (str_ltb (fst kv) (fst kv')); [reflexivity |].
  rewrite IH. apply perm_swap.
Qed.

Lemma sorted_items_perm {V} (d : list (str * V)) : Permutation (sorted_items d) d.
Proof.
  unfold sorted_items. induction d as [| kv d IH]; simpl; [reflexivity |].
  rewrite insert_by_key_perm. constructor. exact IH.
Qed.

Lemma insert_by_key_sorted {V} (kv : str * V) (l : list (str * V)) :
  StronglySorted key_le l -> StronglySorted key_le (insert_by_key kv l).
Proof.
  induction 1 as [| kv' l Hs IH Hall]; simpl.
  - repeat constructor.
  - destruct (str_ltb (fst kv) (fst kv')) eqn:E.
    + constructor; [constructor; assumption |].
      assert (Hk : key_le kv kv').
      { unfold key_le. destruct (str_ltb (fst kv') (fst kv)) eqn:E'; [| reflexivity].
        pose proof (str_ltb_trans _ _ _ E E') as H. rewrite str_ltb_irrefl in H. discriminate. }
      constructor; [exact Hk |].
      eapply Forall_impl; [| exact Hall]. intros x Hx. exact (key_le_trans _ _ _ Hk Hx).
    + constructor; [exact IH |].
      apply (Permutation_Forall (x := kv :: l)).
      * symmetry. apply insert_by_key_perm.
      * constructor; [exact E | exact Hall].
Qed.

Lemma sorted_items_sorted {V} (d : list (str * V)) : StronglySorted key_le (sorted_items d).
Proof.
  unfold sorted_items. induction d as [| kv d IH]; simpl; [constructor |].
  apply insert_by_key_sorted. exact IH.
Qed.

(** *** Dictionaries as lists of items *)

Lemma dict_get_set_same {V} (k : str) (v default : V) (d : list (str * V)) :
  dict_get (dict_set k v d) k default = v.
Proof.
  unfold dict_get. induction d as [| [k' v'] d IH]; simpl.
  - rewrite str_eqb_refl. reflexivity.
  - destruct (str_eqb k k') eqn:E; simpl; rewrite E; [reflexivity | exact IH].
Qed.

Lemma dict_get_set_other {V} (k k' : str) (v default : V) (d : list (str * V)) :
  k' <> k -> dict_get (dict_set k v d) k' default = dict_get d k' default.
Proof.
  intros Hne. unfold dict_get. induction d as [| [k0 v0] d IH]; simpl.
  - apply str_eqb_neq in Hne. rewrite Hne. reflexivity.
  - destruct (str_eqb k k0) eqn:E; simpl.
    + apply str_eqb_eq in E. subst k0. apply str_eqb_neq in Hne. rewrite Hne. reflexivity.
    + destruct (str_eqb k' k0); [reflexivity | exact IH].
Qed.

Lemma dict_set_keys {V} (k : str) (v : V) (d : list (str * V)) :
  map fst (dict_set k v d) = if existsb (str_eqb k) (map fst d) then map fst d
                             else map fst d ++ [k].
Proof.
  induction d as [| [k' v'] d IH]; simpl; [reflexivity |].
  destruct (str_eqb k k') eqn:E; simpl; [reflexivity |].
  rewrite IH. destruct (existsb (str_eqb k) (map fst d)); reflexivity.
Qed.

Lemma existsb_str_eqb_In (k : str) (l : list str) : existsb (str_eqb k) l = true <-> In k l.
Proof.
  rewrite existsb_exists. split.
  - intros (x & Hx & E). apply str_eqb_eq in E. subst. exact Hx.
  - intros H. exists k. split; [exact H | apply str_eqb_refl].
Qed.

Lemma dict_set_nodup {V} (k : str) (v : V) (d : list (str * V)) :
  NoDup (map fst d) -> NoDup (map fst (dict_set k v d)).
Proof.
  intros H. rewrite dict_set_keys.
  destruct (existsb (str_eqb k) (map fst d)) eqn:E; [exact H |].
  apply (Permutation_NoDup (l := k :: map fst d)).
  - apply Permutation_cons_append.
  - constructor; [| exact H]. intros Hin. apply existsb_str_eqb_In in Hin. congruence.
Qed.

(* ================================================================== *)
(** ** The sorted tables: disk I/O counters and connection states *)

(** X5: the I/O counters table has one row per disk, in the order of the
    disk names; and when [psutil.disk_io_counters] raises an exception,
    returns [None] or returns no disk, the snapshot goes on without the
    section. *)
Theorem disk_io_counters_table (ps : Psutil) (parts : list str) :
  (forall items, disk_io_counters ps = Returns (Some items) -> items <> [] ->
     exists sorted,
       Permutation sorted items /\ StronglySorted key_le sorted
       /\ disk_io_part ps parts
          = ret (parts ++ [make_sub (lit "I/O Counters")
                             (make_table (map disk_io_row sorted)
                                (Some [lit "Disk"; lit "Reads"; lit "Writes"; lit "Read Bytes";
                                       lit "Written Bytes"; lit "Read Time"; lit "Write Time"]))]))
  /\ (disk_io_counters ps = Returns None \/ disk_io_counters ps = Returns (Some [])
      \/ (exists e, disk_io_counters ps = Raises e /\ isinstance e Exception = true) ->
      disk_io_part ps parts = ret parts).
Proof.
  split.
  - intros items H Hne. exists (sorted_items items).
    split; [apply sorted_items_perm |]. split; [apply sorted_items_sorted |].
    unfold disk_io_part, lift. rewrite H.
    destruct items as [| item items]; [contradiction |]. reflexivity.
  - unfold disk_io_part, lift. intros [H | [H | (e & H & He)]]; rewrite H.
    + reflexivity.
    + reflexivity.
    + cbn [bind try_except existsb]. rewrite He. reflexivity.
Qed.

Lemma disk_io_counters_table_witness :
  exists sorted,
    Permutation sorted [(lit "sdb", {| read_count := 1; write_count := 2; read_bytes := 3;
                                       write_bytes := 4; read_time := 5; write_time := 6 |});
                        (lit "sda", {| read_count := 7; write_count := 8; read_bytes := 9;
                                       write_bytes := 10; read_time := 11; write_time := 12 |})]
    /\ StronglySorted key_le sorted.
Proof.
  destruct (proj1 (disk_io_counters_table
                     {| boot_time := []; cpu_count_physical := None; cpu_count_logical := None;
                        cpu_freq := None; cpu_percent := 0%Q; cpu_percent_percpu := [];
                        sensors_temperatures := None;
                        virtual_memory := virtual_memory (sample_psutil []);
                        swap_memory := swap_memory (sample_psutil []);
                        disk_partitions := []; disk_usage := fun _ => Raises OSError;
                        disk_io_counters :=
                          Returns (Some
                            [(lit "sdb", {| read_count := 1; write_count := 2; read_bytes := 3;
                                            write_bytes := 4; read_time := 5; write_time := 6 |});
                             (lit "sda", {| read_count := 7; write_count := 8; read_bytes := 9;
                                            write_bytes := 10; read_time := 11;
                                            write_time := 12 |})]);
                        net_if_addrs := []; net_if_stats := []; net_io_counters := [];
                        net_connections := Returns [] |} [])
                  _ eq_refl)
    as (sorted & Hperm & Hsorted & _); [discriminate |].
  exists sorted. exact (conj Hperm Hsorted).
Defined.

(** *** The histogram of the connection states *)

Lemma dict_get_of_item {V} (d : list (str * V)) (k : str) (v default : V) :
  NoDup (map fst d) -> In (k, v) d -> dict_get d k default = v.
Proof.
  unfold dict_get. induction d as [| [k' v'] d IH]; simpl; [contradiction |].
  intros Hnd [H | H].
  - injection H as -> ->. rewrite str_eqb_refl. reflexivity.
  - inversion Hnd as [| ? ? Hnotin Hnd']. subst.
    destruct (str_eqb k k') eqn:E.
    + apply str_eqb_eq in E. subst k'. exfalso. apply Hnotin.
      apply (in_map fst) in H. exact H.
    + apply IH; assumption.
Qed.

Lemma count_status_cons (s c : str) (connections : list str) :
  count_status s (c :: connections)
  = ((if str_eqb s c then 1 else 0) + count_status s connections)%Z.
Proof.
  unfold count_status. simpl. destruct (str_eqb s c); simpl length; lia.
Qed.

Lemma count_statuses_fold (connections : list str) (acc : list (str * Z)) :
  NoDup (map fst acc) ->
  let res :=
    fold_left (fun status_counts status =>
                 dict_set status (dict_get status_counts status 0 + 1)%Z status_counts)
              connections acc in
  NoDup (map fst res)
  /\ (forall s, dict_get res s 0%Z = (dict_get acc s 0 + count_status s connections)%Z)
  /\ (forall s, In s (map fst res) <-> In s (map fst acc) \/ In s connections).
Proof.
  revert acc. induction connections as [| c connections IH]; intros acc Hnd; cbv zeta; simpl.
  - split; [exact Hnd |]. split.
    + intros s. unfold count_status. simpl. lia.
    + intros s. tauto.
  - destruct (IH (dict_set c (dict_get acc c 0 + 1)%Z acc) (dict_set_nodup _ _ _ Hnd))
      as (Hnd' & Hget & Hkeys).
    split; [exact Hnd' |]. split.
    + intros s. rewrite Hget, count_status_cons.
      destruct (str_eqb s c) eqn:E.
      * apply str_eqb_eq in E. subst c. rewrite dict_get_set_same. lia.
      * apply str_eqb_neq in E. rewrite dict_get_set_other by exact E. lia.
    + intros s. rewrite Hkeys, dict_set_keys.
      destruct (existsb (str_eqb c) (map fst acc)) eqn:E.
      * apply existsb_str_eqb_In in E. split; [tauto |].
        intros [H | [H | H]]; auto. subst. auto.
      * rewrite in_app_iff. simpl. tauto.
Qed.

(** X6: the rows of the "Active Connections" table are a histogram of the
    connection states: the states are in lexicographic order, each state
    of a connection has exactly one row, no other state has one, and the
    count of a row is the number of connections in that state (so the
    counts add up to the number of connections). *)
Theorem connection_histogram (connections : list str) :
  StronglySorted key_le (sorted_items (count_statuses connections))
  /\ NoDup (map fst (sorted_items (count_statuses connections)))
  /\ (forall s, In s (map fst (sorted_items (count_statuses connections)))
                <-> In s connections)
  /\ (forall s n, In (s, n) (sorted_items (count_statuses connections)) ->
                  n = count_status s connections /\ (0 < n)%Z).
Proof.
  destruct (count_statuses_fold connections [] (NoDup_nil _)) as (Hnd & Hget & Hkeys).
  fold (count_statuses connections) in Hnd, Hget, Hkeys.
  pose proof (sorted_items_perm (count_statuses connections)) as Hperm.
  split; [apply sorted_items_sorted |].
  split.
  { apply (Permutation_NoDup (l := map fst (count_statuses connections))); [| exact Hnd].
    apply Permutation_map. symmetry. exact Hperm. }
  split.
  { intros s.
    assert (Hiff : In s (map fst (count_statuses connections)) <-> In s [] \/ In s connections)
      by apply Hkeys.
    split.
    - intros H. apply (Permutation_in _ (Permutation_map fst Hperm)) in H.
      apply Hiff in H. destruct H as [[] | H]. exact H.
    - intros H.
      apply (Permutation_in _ (Permutation_map fst (Permutation_sym Hperm))).
      apply Hiff. right. exact H. }
  intros s n Hin.
  apply (Permutation_in _ Hperm) in Hin.
  assert (Hn : n = count_status s connections).
  { rewrite <- (dict_get_of_item _ s n 0%Z Hnd Hin), Hget. unfold dict_get. simpl. lia. }
  split; [exact Hn |].
  assert (Hs : In s connections).
  { assert (H : In s (map fst (count_statuses connections))).
    { apply (in_map fst) in Hin. exact Hin. }
    apply Hkeys in H. destruct H as [[] | H]. exact H. }
  subst n. unfold count_status.
  assert (Hf : In s (filter (str_eqb s) connections)).
  { apply filter_In. split; [exact Hs | apply str_eqb_refl]. }
  destruct (filter (str_eqb s) connections); [contradiction | simpl length; lia].
Qed.

(* ================================================================== *)
(** ** The memory modules read from dmidecode *)

Lemma dmi_fields_keys (line : str) (keys : list str) (current_device : list (str * str)) :
  (forall k, In k keys -> In k dmi_keys) ->
  (forall k, In k (map fst current_device) -> In k dmi_keys) ->
  forall k,
    In k (map fst (fold_left
                     (fun current_device key =>
                        if startswith (key ++ lit ":") line
                        then dict_set key (strip (nth 1 (split1 58%N line) [])) current_device
                        else current_device)
                     keys current_device)) ->
    In k dmi_keys.
Proof.
  revert current_device. induction keys as [| key keys IH]; intros cd Hkeys Hcd; simpl.
  - exact Hcd.
  - apply IH.
    + intros k Hk. apply Hkeys. right. exact Hk.
    + destruct (startswith (key ++ lit ":") line); [| exact Hcd].
      intros k. rewrite dict_set_keys.
      destruct (existsb (str_eqb key) (map fst cd)); [apply Hcd |].
      rewrite in_app_iff. intros [H | [<- | []]]; [apply Hcd; exact H |].
      apply Hkeys. left. reflexivity.
Qed.

(** What the parser keeps from one line to the next: the devices collected
    so far are populated, and no dictionary has a key outside [dmi_keys]. *)
Lemma dmi_line_keeps (st : list (str * str) * list (list (str * str))) (line : str) :
  (forall k, In k (map fst (fst st)) -> In k dmi_keys) ->
  Forall (fun dev => slot_populated dev = true
                     /\ forall k, In k (map fst dev) -> In k dmi_keys) (snd st) ->
  (forall k, In k (map fst (fst (dmi_line st line))) -> In k dmi_keys)
  /\ Forall (fun dev => slot_populated dev = true
                        /\ forall k, In k (map fst dev) -> In k dmi_keys)
            (snd (dmi_line st line)).
Proof.
  destruct st as [current_device devices]. cbn [fst snd]. intros Hcd Hdevs.
  unfold dmi_line.
  destruct (startswith (lit "Memory Device") (strip line)); cbn [fst snd].
  - split.
    + apply dmi_fields_keys; [auto | intros k []].
    + destruct (slot_populated current_device) eqn:E; [| exact Hdevs].
      apply Forall_app. split; [exact Hdevs |]. constructor; [| constructor].
      split; [exact E | exact Hcd].
  - split; [| exact Hdevs].
    apply dmi_fields_keys; [auto | exact Hcd].
Qed.

(** X7: every memory module that the dmidecode parser reports is a
    populated slot: it has a [Size] that is not empty and does not say
    "No Module" (an empty slot of the board is left out), and its fields
    are among the eight the parser reads.  Empty output gives no module. *)
Theorem parse_dmidecode_modules (output : str) :
  Forall (fun dev =>
            (exists size, assoc (lit "Size") dev = Some size /\ size <> []
                          /\ contains (lit "No Module") size = false)
            /\ forall k, In k (map fst dev) -> In k dmi_keys)
         (parse_dmidecode output)
  /\ parse_dmidecode [] = [].
Proof.
  split; [| reflexivity].
  assert (Hinv : forall lines st,
             (forall k, In k (map fst (fst st)) -> In k dmi_keys) ->
             Forall (fun dev => slot_populated dev = true
                                /\ forall k, In k (map fst dev) -> In k dmi_keys) (snd st) ->
             (forall k, In k (map fst (fst (fold_left dmi_line lines st))) -> In k dmi_keys)
             /\ Forall (fun dev => slot_populated dev = true
                                   /\ forall k, In k (map fst dev) -> In k dmi_keys)
                       (snd (fold_left dmi_line lines st))).
  { induction lines as [| line lines IH]; intros st H1 H2; simpl; [auto |].
    destruct (dmi_line_keeps st line H1 H2) as [H1' H2']. exact (IH _ H1' H2'). }
  unfold parse_dmidecode.
  destruct (Hinv (splitlines output) ([], [])) as [Hcd Hdevs];
    [intros k [] | constructor |].
  destruct (fold_left dmi_line (splitlines output) ([], [])) as [current_device devices].
  cbn [fst snd] in Hcd, Hdevs.
  assert (Hall : Forall (fun dev => slot_populated dev = true
                                    /\ forall k, In k (map fst dev) -> In k dmi_keys)
                        (if slot_populated current_device
                         then devices ++ [current_device] else devices)).
  { destruct (slot_populated current_device) eqn:E; [| exact Hdevs].
    apply Forall_app. split; [exact Hdevs |]. constructor; [| constructor].
    split; [exact E | exact Hcd]. }
  eapply Forall_impl; [| exact Hall].
  intros dev [Hpop Hkeys]. split; [| exact Hkeys].
  unfold slot_populated in Hpop.
  change (@assoc str) with (@assoc (list char)) in Hpop.
  destruct (assoc (lit "Size") dev) as [[| c size] |]; try discriminate Hpop.
  exists (c :: size). split; [reflexivity |]. split; [discriminate |].
  apply negb_true_iff. exact Hpop.
Qed.

(* ================================================================== *)
(** ** From a partition to its device *)






(* ================================================================== *)
(** ** Key-value tables and the partitions of the disk snapshot *)

(** X9: a key-value table shows two cells per row whatever the rows hold:
    a row with fewer than two cells is completed with empty cells, the
    cells of a row after the second are not shown, and no row makes the
    function fail. *)
Theorem make_kv_table_two_cells (rows : list (list str)) :
  make_kv_table rows = make_kv_table (map (fun row => [nth 0 row []; nth 1 row []]) rows)
  /\ make_kv_table rows
     = (markup "<table class='kv'><tbody>" ++ nl)
       ++ flat_map (fun row =>
                      markup "<tr><td class='kv-key'>" ++ esc (nth 0 row [])
                      ++ markup "</td><td class='kv-val'>" ++ esc (nth 1 row [])
                      ++ lit "</td></tr>" ++ nl) rows
       ++ lit "</tbody></table>" ++ nl.
Proof.
  assert (Hrow : forall row : list str,
             kv_tr_html row
             = markup "<tr><td class='kv-key'>" ++ esc (nth 0 row [])
               ++ markup "</td><td class='kv-val'>" ++ esc (nth 1 row [])
               ++ lit "</td></tr>" ++ nl).
  { intros row. unfold kv_tr_html.
    assert (E : esc [] = []) by reflexivity.
    destruct row as [| k [| v row]]; cbn [nth]; rewrite ?E; reflexivity. }
  assert (Hflat : forall rows : list (list str),
             flat_map kv_tr_html rows
             = flat_map (fun row =>
                           markup "<tr><td class='kv-key'>" ++ esc (nth 0 row [])
                           ++ markup "</td><td class='kv-val'>" ++ esc (nth 1 row [])
                           ++ lit "</td></tr>" ++ nl) rows).
  { intros l. induction l as [| row l IH]; [reflexivity |].
    cbn [flat_map]. rewrite Hrow, IH. reflexivity. }
  split.
  - rewrite !make_kv_table_flat, !Hflat. f_equal. f_equal.
    induction rows as [| row rows IH]; [reflexivity |].
    cbn [map flat_map nth]. rewrite IH. reflexivity.
  - rewrite make_kv_table_flat, Hflat. reflexivity.
Qed.

(** *** Partitions *)

Lemma partitions_loop (ps : Psutil) (partitions : list sdiskpart) (disk_html : str) :
  Forall (usage_readable_or_denied ps) partitions ->
  for_each partitions disk_html
    (fun disk_html part =>
       try_except
         (usage <- lift (disk_usage ps (mountpoint part)) ;;
          ret (disk_html ++ partition_block part usage))
         [PermissionError; OSError]
         (ret (disk_html ++ partition_no_access part)))
  = ret (disk_html ++ flat_map (partition_html ps) partitions).
Proof.
  intros H. revert disk_html. induction H as [| part partitions Hpart _ IH]; intros disk_html.
  - cbn [for_each flat_map]. rewrite app_nil_r. reflexivity.
  - cbn [for_each flat_map].
    assert (E : try_except
                  (usage <- lift (disk_usage ps (mountpoint part)) ;;
                   ret (disk_html ++ partition_block part usage))
                  [PermissionError; OSError]
                  (ret (disk_html ++ partition_no_access part))
                = ret (disk_html ++ partition_html ps part)).
    { unfold usage_readable_or_denied in Hpart. unfold partition_html, lift.
      destruct (disk_usage ps (mountpoint part)) as [usage | e].
      - reflexivity.
      - cbn [bind try_except existsb]. rewrite Hpart, orb_true_r. reflexivity. }
    rewrite E, bind_ret_l, IH, <- app_assoc. reflexivity.
Qed.

(** X10: a partition whose usage cannot be read does not abort the disk
    snapshot.  When reading the usage of each mounted partition returns or
    fails with an [OSError] (a [PermissionError] included), the section
    has one block per partition, in the order of [psutil.disk_partitions]:
    the usage block, or the block with the NO ACCESS badge.  Without a
    mounted partition there is no such section. *)
Theorem partitions_without_access (ps : Psutil) (parts : list str) :
  Forall (usage_readable_or_denied ps) (disk_partitions ps) ->
  disk_partitions_part ps parts
  = ret (match disk_partitions ps with
         | [] => parts
         | _ => parts ++ [make_sub (lit "Partitions &amp; Usage")
                            (flat_map (partition_html ps) (disk_partitions ps))]
         end).
Proof.
  intros H. unfold disk_partitions_part.
  destruct (disk_partitions ps) as [| part partitions] eqn:E; [reflexivity |].
  refine (eq_trans (f_equal (fun m => bind m _) (partitions_loop ps (part :: partitions) [] H)) _).
  rewrite bind_ret_l. reflexivity.
Qed.

Lemma partitions_without_access_witness :
  disk_partitions_part (sample_psutil [lit "/dev/sda1"]) []
  = ret [make_sub (lit "Partitions &amp; Usage")
           (flat_map (partition_html (sample_psutil [lit "/dev/sda1"]))
                     (disk_partitions (sample_psutil [lit "/dev/sda1"])))].
Proof.
  apply (partitions_without_access (sample_psutil [lit "/dev/sda1"]) []).
  repeat constructor.
Defined.

(* ================================================================== *)
(** ** The GPU snapshot that is empty *)

Lemma nvidia_smi_short_line (line : str) :
  length (split 44%N line) < 15 -> nvidia_smi_section line = None.
Proof.
  intros H. unfold nvidia_smi_section. rewrite length_map.
  destruct (Nat.leb 15 (length (split 44%N line))) eqn:E; [| reflexivity].
  apply Nat.leb_le in E. lia.
Qed.

Lemma nvidia_smi_no_section (lines : list str) (parts : list str) :
  Forall (fun line => length (split 44%N line) < 15) lines ->
  fold_left (fun parts line =>
               match nvidia_smi_section line with
               | Some section => parts ++ [section]
               | None => parts
               end) lines parts
  = parts.
Proof.
  intros H. revert parts. induction H as [| line lines Hline _ IH]; intros parts; simpl.
  - reflexivity.
  - rewrite (nvidia_smi_short_line line Hline). apply IH.
Qed.

(** X11: the GPU snapshot can be empty, without the guidance note.  When
    nvidia-smi is the only source (no GPUtil, no rocm-smi, not Linux), exits
    with code 0 and prints lines none of which has the 15 fields of a
    record (a message instead of a table), the collector counts a GPU as
    found although it added no section: the snapshot is the empty
    string. *)
Theorem gpu_found_without_section (w : World) (p : CompletedProcess) :
  GPUtil w = None ->
  which w (lit "nvidia-smi") = true -> which w (lit "rocm-smi") = false ->
  str_eqb (platform_system w) (lit "Linux") = false ->
  run w nvidia_smi_cmd 10%Z = Returns p -> returncode p = 0%Z ->
  strip (stdout p) <> [] ->
  Forall (fun line => length (split 44%N line) < 15) (splitlines (strip (stdout p))) ->
  collect_gpu_info w = (Returns [], [Spawn nvidia_smi_cmd]).
Proof.
  intros Hgpu Hnv Hrocm Hlinux Hrun H0 Hne Hlines.
  assert (E2 : gpu_nvidia_smi w ([], false) = (Returns ([], true), [Spawn nvidia_smi_cmd])).
  { unfold gpu_nvidia_smi. cbn [snd negb andb]. rewrite Hnv.
    rewrite run_cmd_eq, Hrun, H0. cbn [Z.eqb].
    destruct (strip (stdout p)) as [| c out] eqn:E; [contradiction |].
    cbn [bind nonempty_output fst]. rewrite (nvidia_smi_no_section _ [] Hlines). reflexivity. }
  assert (E3 : gpu_rocm_smi w ([], true) = ret ([], true)).
  { unfold gpu_rocm_smi. rewrite Hrocm. reflexivity. }
  assert (E4 : gpu_lspci w ([], true) = ret ([], true)).
  { unfold gpu_lspci. rewrite Hlinux. reflexivity. }
  assert (E5 : gpu_windows w ([], true) = ret ([], true)).
  { unfold gpu_windows. cbn [snd negb]. rewrite andb_false_r. reflexivity. }
  assert (E6 : gpu_darwin w ([], true) = ret ([], true)).
  { unfold gpu_darwin. cbn [snd negb]. rewrite andb_false_r. reflexivity. }
  unfold collect_gpu_info, gpu_gputil. rewrite Hgpu, bind_ret_l, E2.
  rewrite bind_returned_pair.
  rewrite E3, bind_ret_l, E4, bind_ret_l, E5, bind_ret_l, E6, bind_ret_l.
  reflexivity.
Qed.

Lemma gpu_found_without_section_witness :
  collect_gpu_info
    (with_run (with_tools (bare_world (lit "Windows")) [lit "nvidia-smi"])
              (answers [(nvidia_smi_cmd, exited 0 (lit "No devices were found"))]))
  = (Returns [], [Spawn nvidia_smi_cmd]).
Proof.
  apply (gpu_found_without_section
           (with_run (with_tools (bare_world (lit "Windows")) [lit "nvidia-smi"])
                     (answers [(nvidia_smi_cmd, exited 0 (lit "No devices were found"))]))
           {| returncode := 0; stdout := lit "No devices were found" |}).
  - reflexivity.
  - vm_compute. reflexivity.
  - vm_compute. reflexivity.
  - vm_compute. reflexivity.
  - vm_compute. reflexivity.
  - reflexivity.
  - vm_compute. discriminate.
  - vm_compute. repeat constructor.
Defined.

(* ================================================================== *)
(** ** The unit of a byte count *)














(* ================================================================== *)
(** ** The header of the report *)

Lemma tags_same_step (cur cur' : option str) (a b b' : str) :
  tag_state cur a = cur' -> tags_aux cur' b = tags_aux cur' b' ->
  tags_aux cur (a ++ b) = tags_aux cur (a ++ b').
Proof. intros <- H. repeat rewrite tags_aux_app. rewrite H. reflexivity. Qed.

Lemma tags_blank_step (s b b' : str) :
  tags_aux None b = tags_aux None b' ->
  tags_aux None (esc s ++ b) = tags_aux None ([] ++ b').
Proof.
  intros H. destruct (same_tags_esc s) as (Ht & Hs & _). unfold tags in Ht.
  rewrite tags_aux_app, Ht, Hs. exact H.
Qed.

(** Where the tokenizer stands after a piece of the template. *)
Ltac state_step :=
  match goal with
  | |- tag_state _ (lit _) = _ => vm_compute; reflexivity
  | |- tag_state _ (markup _) = _ => vm_compute; reflexivity
  | |- tag_state _ nl = _ => vm_compute; reflexivity
  | |- tag_state None _ = _ => first [eassumption | reflexivity]
  end.

(** Walks the pieces of two instances of the template that differ in
    escaped fields only. *)
Ltac walk_template :=
  repeat first
    [ match goal with
      | |- tags_aux None (esc _ ++ _) = _ => apply tags_blank_step
      end
    | match goal with
      | |- tags_aux (tag_state ?c ?x) _ = _ => generalize (tag_state c x); intros [? |]
      end
    | eapply tags_same_step; [state_step |] ].

Lemma main_returns (style : str) (w : World) (output : str) (c : str) :
  result (collect_all w) = Returns c -> exists r, result (main style w output) = Returns r.
Proof.
  intros H. unfold main. rewrite result_bind, H. eexists. reflexivity.
Qed.

(** X13: the page that [main] writes is the template filled with the
    escaped host name, time and OS name, the banner and the six cards;
    and the three fields of the header contribute no tag to it: the tags
    of the page are those of the page with the three fields empty,
    whatever the host is called.  (The style sheet is the fixed text of
    the template, which leaves the tokenizer outside a tag.) *)
Theorem report_header_is_escaped (style : str) (w : World) (output : str) (r : Report) :
  tag_state None style = None ->
  result (main style w output) = Returns r ->
  html_output r
  = HTML_TEMPLATE style (esc (gethostname w)) (esc (now w))
                  (esc (system (uname w) ++ lit " " ++ release (uname w)))
                  (missing_banner r) (content r)
  /\ tags (html_output r) = tags (HTML_TEMPLATE style [] [] [] (missing_banner r) (content r))
  /\ filename r = output ++ lit ".html".
Proof.
  intros Hstyle H. unfold main in H.
  apply result_bind_returns in H. destruct H as (c & Hall & H).
  apply returned_ret in H. subst r. cbn [html_output missing_banner content filename].
  split; [reflexivity |]. split; [| reflexivity].
  unfold HTML_TEMPLATE, tags. walk_template; reflexivity.
Qed.

Lemma report_header_is_escaped_witness :
  exists r,
    result (main (lit "<style></style>")
                 (with_hostname (bare_world (lit "Linux")) (lit "<script>alert(1)</script>"))
                 (lit "hardware_report")) = Returns r
    /\ tags (html_output r)
       = tags (HTML_TEMPLATE (lit "<style></style>") [] [] [] (missing_banner r) (content r)).
Proof.
  assert (Hun : adapters_unavailable
                  (with_hostname (bare_world (lit "Linux")) (lit "<script>alert(1)</script>"))).
  { unfold adapters_unavailable.
    cbn [with_hostname bare_world psutil cpuinfo GPUtil run getfqdn gethostbyname].
    repeat split; reflexivity. }
  destruct (unavailable_collect_all Hun) as (summary & rows & _ & _ & Hall).
  destruct (main_returns (lit "<style></style>") _ (lit "hardware_report") _ Hall) as (r & Hr).
  exists r. split; [exact Hr |].
  refine (proj1 (proj2 (report_header_is_escaped (lit "<style></style>") _ (lit "hardware_report") r
                          _ Hr))).
  vm_compute. reflexivity.
Defined.

(* ================================================================== *)
(** ** The commands the program runs *)







(** *** The stages of the collectors *)

Section Permitted.

Variable w : World.










End Permitted.





(* ================================================================== *)
(** ** JSON of an unexpected shape *)

Lemma raises_bind_l {A B} (m : M A) (f : A -> M B) : raises m -> raises (bind m f).
Proof.
  unfold raises. intros [e H]. exists e. rewrite result_bind, H. reflexivity.
Qed.

Lemma raises_bind_r {A B} (m : M A) (f : A -> M B) :
  (forall a, raises (f a)) -> raises (bind m f).
Proof.
  unfold raises. intros H. rewrite result_bind.
  destruct (result m) as [a | e]; [apply H | exists e; reflexivity].
Qed.

Lemma lsblk_not_an_object (w : World) (p : CompletedProcess) (v : pyval) (st : phys_state) :
  run w lsblk_cmd 10%Z = Returns p -> returncode p = 0%Z -> strip (stdout p) <> [] ->
  json_loads w (strip (stdout p)) = Returns v -> (forall d, v <> PDict d) ->
  result (disk_lsblk w st) = Raises AttributeError.
Proof.
  intros Hrun H0 Hne Hjson Hshape. unfold disk_lsblk.
  rewrite run_cmd_eq, Hrun, H0. cbn [Z.eqb]. rewrite bind_returned_pair.
  destruct (strip (stdout p)) as [| c out] eqn:E; [contradiction |].
  cbn [nonempty_output]. rewrite Hjson. unfold lift. rewrite bind_returned_eq.
  destruct v as [| b | z | s | l | d]; try reflexivity.
  exfalso. exact (Hshape d eq_refl).
Qed.

(** X15: of what can go wrong with a tool's JSON only a text that is not
    JSON is handled.  On Linux with psutil, when [lsblk] exits with code 0
    and prints JSON whose top-level value is not an object (a list, a
    number, a string, [null]), reading [blockdevices] from it raises
    [AttributeError], which the handler of [JSONDecodeError] lets through:
    the disk collector raises, and [main], which has no handler, raises as
    well, so that no report is written.  When the partition and I/O
    sections had been built, the exception of the disk collector is the
    [AttributeError]. *)
Theorem lsblk_json_shape_aborts_report
    (style : str) (w : World) (output : str) (ps : Psutil) (p : CompletedProcess) (v : pyval) :
  psutil w = Some ps -> runs_on w (lit "Linux") ->
  run w lsblk_cmd 10%Z = Returns p -> returncode p = 0%Z -> strip (stdout p) <> [] ->
  json_loads w (strip (stdout p)) = Returns v -> (forall d, v <> PDict d) ->
  raises (collect_disk_info w)
  /\ raises (main style w output)
  /\ (forall parts parts',
        result (disk_partitions_part ps []) = Returns parts ->
        result (disk_io_part ps parts) = Returns parts' ->
        result (collect_disk_info w) = Raises AttributeError).
Proof.
  intros Hps Hlinux Hrun H0 Hne Hjson Hshape.
  pose proof (lsblk_not_an_object w p v ([], false) Hrun H0 Hne Hjson Hshape) as Hlsblk.
  assert (Hphys : result (disk_physical w ps) = Raises AttributeError).
  { unfold disk_physical. unfold runs_on in Hlinux. rewrite Hlinux.
    rewrite result_bind, result_bind, Hlsblk. reflexivity. }
  assert (Hdisk : raises (collect_disk_info w)).
  { unfold collect_disk_info. rewrite Hps.
    apply raises_bind_r. intros parts. apply raises_bind_r. intros parts'.
    apply raises_bind_l. exists AttributeError. exact Hphys. }
  split; [exact Hdisk |]. split.
  - unfold main. apply raises_bind_l. unfold collect_all.
    apply raises_bind_r. intros summary. apply raises_bind_r. intros cpu.
    apply raises_bind_r. intros memory. apply raises_bind_r. intros gpu.
    apply raises_bind_l. exact Hdisk.
  - intros parts parts' Hparts Hio. unfold collect_disk_info. rewrite Hps.
    rewrite result_bind, Hparts, result_bind, Hio, result_bind, Hphys. reflexivity.
Qed.

Lemma lsblk_json_shape_aborts_report_witness :
  raises (collect_disk_info lsblk_list_world)
  /\ raises (main [] lsblk_list_world (lit "hardware_report")).
Proof.
  assert (H : raises (collect_disk_info lsblk_list_world)
              /\ raises (main [] lsblk_list_world (lit "hardware_report"))
              /\ (forall parts parts',
                    result (disk_partitions_part (sample_psutil [lit "/dev/sda1"]) [])
                    = Returns parts ->
                    result (disk_io_part (sample_psutil [lit "/dev/sda1"]) parts) = Returns parts' ->
                    result (collect_disk_info lsblk_list_world) = Raises AttributeError)).
  { apply (lsblk_json_shape_aborts_report [] lsblk_list_world (lit "hardware_report")
             (sample_psutil [lit "/dev/sda1"])
             {| returncode := 0; stdout := lit "[]" |} (PList [])).
    - reflexivity.
    - vm_compute. reflexivity.
    - vm_compute. reflexivity.
    - reflexivity.
    - vm_compute. discriminate.
    - reflexivity.
    - intros d. discriminate. }
  exact (conj (proj1 H) (proj1 (proj2 H))).
Defined.

(* ================================================================== *)
(** ** A temperature of zero *)

Lemma temp_text_not_available (v : Q) : temp_text (Some v) = lit "N/A" <-> (v == 0)%Q.
Proof.
  unfold temp_text, Qtruthy. destruct (Qeq_bool v 0) eqn:E; cbn [negb].
  - split; intros _; [apply Qeq_bool_eq; exact E | reflexivity].
  - split.
    + intros H. exfalso.
      assert (E1 : lit "°C" = [176%N] ++ [67%N]) by (vm_compute; reflexivity).
      assert (E2 : lit "N/A" = [78%N; 47%N] ++ [65%N]) by (vm_compute; reflexivity).
      rewrite E1, E2, app_assoc in H. apply app_inj_tail in H. destruct H as [_ H].
      discriminate H.
    + intros H. apply Qeq_eq_bool in H. congruence.
Qed.

(** X16: a temperature of exactly 0 degrees is shown as missing.  The
    text of a reading is [N/A] exactly when the reading is absent or
    equal to 0 (a reading below zero is shown with one decimal); so in the
    table of the psutil sensors a sensor that reads 0 has [N/A] in the
    Current column, while the table still counts as found. *)
Theorem zero_temperature_is_not_available :
  (forall v, temp_text (Some v) = lit "N/A" <-> (v == 0)%Q)
  /\ (forall w ps chip entry st,
        psutil w = Some ps -> sensors_temperatures ps = Some [(chip, [entry])] ->
        (temp_current entry == 0)%Q ->
        cpu_temp_psutil w st
        = (Returns (make_table
                      [[ chip ++ lit ": " ++ str_or (temp_label entry) (lit "N/A");
                         lit "N/A"; temp_text (temp_high entry);
                         temp_text (temp_critical entry) ]]
                      (Some [lit "Sensor"; lit "Current"; lit "High"; lit "Critical"]), true),
           [Call (lit "psutil.sensors_temperatures")]))
  /\ temp_text (Some (-(5 # 1))%Q) = lit "-5.0°C".
Proof.
  split; [exact temp_text_not_available |]. split.
  - intros w ps chip entry st Hps Hsensors Hzero.
    unfold cpu_temp_psutil. rewrite Hps, Hsensors. unfold probe. rewrite bind_returned_pair.
    cbn [flat_map map app].
    rewrite (proj2 (temp_text_not_available (temp_current entry)) Hzero). reflexivity.
  - vm_compute. reflexivity.
Qed.

Lemma zero_temperature_is_not_available_witness :
  cpu_temp_psutil freezing_world ([], false)
  = (Returns (make_table [[ lit "coretemp: Core 0"; lit "N/A"; lit "80.0°C"; lit "N/A" ]]
                (Some [lit "Sensor"; lit "Current"; lit "High"; lit "Critical"]), true),
     [Call (lit "psutil.sensors_temperatures")]).
Proof.
  rewrite (proj1 (proj2 zero_temperature_is_not_available)
             freezing_world (with_sensors (sample_psutil []) [(lit "coretemp", [freezing_sensor])])
             (lit "coretemp") freezing_sensor ([], false) eq_refl eq_refl (Qeq_refl 0%Q)).
  vm_compute. reflexivity.
Defined.

